(** * REopt API client: a shallow embedding of [src/reopt-single-scenario.ts]

    The development follows the class [REoptApiClient]:
    - JSON documents and the JavaScript values read out of them;
    - the host runtime ([path.join], [JSON.stringify], [JSON.parse]) as an
      interface, with one executable instance;
    - the outside world (remote service replies, file system) as an explicit
      state, and every side effect of a method as an emitted event;
    - the methods [getApiResults], [getResultsManually], the load/save
      helpers and [printResultsSummary], statement by statement. *)

From Stdlib Require Import ZArith String Ascii List DecimalString Lia.
From stdpp Require Import base option strings gmap.

Set Warnings "-register-all".
Local Open Scope string_scope.
Local Open Scope Z_scope.

(** ** JSON documents and JavaScript values *)

(** A document as [JSON.parse] builds it. Objects keep their (distinct)
    keys in insertion order, which is the order [Object.keys] enumerates
    them in (keys that look like array indices, which the host puts first,
    are not treated apart).
    Numbers are kept as integers: the client never computes with them, it
    only tests them for truthiness and prints them. *)
Inductive json :=
| JNull
| JBool (b : bool)
| JNum (n : Z)
| JStr (s : string)
| JArr (items : list json)
| JObj (props : list (string * json)).

(** A JavaScript value read by the client: a document, or [undefined]
    (written [None]) when a property is missing. *)
Abbreviation value := (option json).
Abbreviation undefined := (@None json).

(** What a JavaScript [throw] carries in this program. *)
Inductive js_error :=
| Error (message : string)                 (* new Error(message) *)
| TypeError (message : string)             (* raised by the runtime *)
| SyntaxError (message : string)           (* raised by JSON.parse *)
| AxiosError (message : string) (response_data : value)
                                           (* rejected axios promise; response_data is
                                              error.response?.data *)
| ENOENT (syscall : string) (path : string) (* fs error, code 'ENOENT' *)
| FsError (code : string) (message : string). (* any other fs failure *)

(** Normal completion or thrown error of an expression or call. *)
Inductive completion (A : Type) :=
| Returned (a : A)
| Thrown (e : js_error).
Arguments Returned {A} a.
Arguments Thrown {A} e.

Definition error_message (e : js_error) : string :=
  match e with
  | Error m | TypeError m | SyntaxError m | AxiosError m _ | FsError _ m => m
  | ENOENT syscall path =>
      "ENOENT: no such file or directory, " +:+ syscall +:+ " '" +:+ path +:+ "'"
  end.

(** [error.response?.data] *)
Definition error_response_data (e : js_error) : value :=
  match e with
  | AxiosError _ d => d
  | _ => undefined
  end.

(** ToBoolean *)
Definition truthy (v : value) : bool :=
  match v with
  | None | Some JNull => false
  | Some (JBool b) => b
  | Some (JNum n) => negb (n =? 0)
  | Some (JStr s) => negb (String.eqb s "")
  | Some (JArr _) | Some (JObj _) => true
  end.

Fixpoint assoc (k : string) (ps : list (string * json)) : value :=
  match ps with
  | [] => undefined
  | (k', v) :: rest => if String.eqb k k' then Some v else assoc k rest
  end.

(** Property read [o.name] / [o[name]]. Reading a property of [null] or
    [undefined] throws. On arrays, strings, numbers and booleans every
    name the client reads is missing (it never reads an index or
    [length]). *)
Definition get_prop (o : value) (name : string) : completion value :=
  match o with
  | None =>
      Thrown (TypeError ("Cannot read properties of undefined (reading '" +:+ name +:+ "')"))
  | Some JNull =>
      Thrown (TypeError ("Cannot read properties of null (reading '" +:+ name +:+ "')"))
  | Some (JObj ps) => Returned (assoc name ps)
  | Some _ => Returned undefined
  end.

(** Optional chaining [o?.name]. *)
Definition get_prop_opt (o : value) (name : string) : completion value :=
  match o with
  | None | Some JNull => Returned undefined
  | _ => get_prop o name
  end.

(** [v === 'text'] *)
Definition strict_eq_str (v : value) (text : string) : bool :=
  match v with
  | Some (JStr s) => String.eqb s text
  | _ => false
  end.

Definition string_of_Z (n : Z) : string := NilZero.string_of_int (Z.to_int n).

(** ToString, as a template literal applies it. A plain object prints as
    [[object Object]] unless an own key shadows [toString], in which case
    no callable conversion is left and the runtime throws. Array elements
    are joined with commas, [null] printing as the empty string. *)
Fixpoint json_to_string (j : json) : completion string :=
  match j with
  | JNull => Returned "null"
  | JBool true => Returned "true"
  | JBool false => Returned "false"
  | JNum n => Returned (string_of_Z n)
  | JStr s => Returned s
  | JArr items =>
      (fix join (l : list json) : completion string :=
         match l with
         | [] => Returned ""
         | x :: rest =>
             match (match x with JNull => Returned "" | _ => json_to_string x end) with
             | Thrown e => Thrown e
             | Returned sx =>
                 match rest with
                 | [] => Returned sx
                 | _ :: _ =>
                     match join rest with
                     | Thrown e => Thrown e
                     | Returned sr => Returned (sx +:+ "," +:+ sr)
                     end
                 end
             end
         end) items
  | JObj ps =>
      match assoc "toString" ps with
      | Some _ => Thrown (TypeError "Cannot convert object to primitive value")
      | None => Returned "[object Object]"
      end
  end.

Definition to_string (v : value) : completion string :=
  match v with
  | None => Returned "undefined"
  | Some j => json_to_string j
  end.

Fixpoint index_keys (start count : nat) : list string :=
  match count with
  | O => []
  | S count' => string_of_Z (Z.of_nat start) :: index_keys (S start) count'
  end.

(** [Object.keys(v)] *)
Definition object_keys (v : value) : completion (list string) :=
  match v with
  | None | Some JNull =>
      Thrown (TypeError "Cannot convert undefined or null to object")
  | Some (JObj ps) => Returned (map fst ps)
  | Some (JArr items) => Returned (index_keys 0 (length items))
  | Some (JStr s) => Returned (index_keys 0 (String.length s))
  | Some _ => Returned []
  end.

(** [text.includes(needle)] *)
Fixpoint includes (text needle : string) : bool :=
  String.prefix needle text
  || match text with
     | EmptyString => false
     | String _ rest => includes rest needle
     end.

(** ** The host runtime *)

(** The three library functions of the host the client calls on data.
    [JSON_stringify v] is [JSON.stringify(v, null, 2)]. *)
Class JsRuntime := {
  path_join : string -> string -> string;
  JSON_stringify : json -> string;
  JSON_parse : string -> completion json;
}.

(** ** The outside world and the effects of a method *)

(** Every call that leaves the program is recorded, in program order. *)
Inductive event :=
| ConsoleLog (args : list value)
| ConsoleError (args : list value)
| HttpPost (url : string) (body : json)     (* axios.post(url, body, headers) *)
| HttpGet (url : string)                    (* axios.get(url) *)
| Sleep (ms : Z)                            (* await this.sleep(ms) *)
| FsWrite (path : string) (data : string).  (* fs.writeFileSync(path, data) *)

(** How a [writeFileSync] can fail. The call opens the file for writing,
    which creates or truncates it, and then writes the data. When the
    open fails the file system is as it was; when a later step fails the
    file is left with the part of the data that got written, possibly
    nothing. *)
Inductive write_failure :=
| OpenFails (e : js_error)
| WriteFails (e : js_error) (bytes_written : nat).

Definition failure_error (failure : write_failure) : js_error :=
  match failure with
  | OpenFails e | WriteFails e _ => e
  end.

(** The remote service and the file system, as the client can observe
    them. [post_reply url body] is what the service answers to a
    submission: [response.data], or the error axios rejects with.
    [get_replies i url] is the answer to the [i]-th GET still to come, so
    that [get_replies 0] is the next one. [write_faults i path] is the
    failure that the [i]-th [writeFileSync] still to come meets if it is
    a write to [path], if any: a write can fail on a path where an
    earlier write succeeded. *)
Record world := {
  post_reply : string -> json -> completion json;
  get_replies : nat -> string -> completion json;
  write_faults : nat -> string -> option write_failure;
  files : gmap string string;
}.

(** The error the next [writeFileSync] raises on [path], if any. *)
Definition write_fault (w : world) (path : string) : option js_error :=
  match write_faults w 0%nat path with
  | Some failure => Some (failure_error failure)
  | None => None
  end.

(** How a call ends: completion, world left behind, events emitted. *)
Record outcome (A : Type) := {
  result : completion A;
  final : world;
  emitted : list event;
}.
Arguments result {A} o.
Arguments final {A} o.
Arguments emitted {A} o.

(** A method body: a state-and-exception computation that logs its calls. *)
Definition M (A : Type) : Type := world -> outcome A.

Definition ret {A} (a : A) : M A :=
  fun w => {| result := Returned a; final := w; emitted := [] |}.

Definition throw {A} (e : js_error) : M A :=
  fun w => {| result := Thrown e; final := w; emitted := [] |}.

Definition bind {A B} (m : M A) (k : A -> M B) : M B :=
  fun w =>
    let o := m w in
    match result o with
    | Thrown e => {| result := Thrown e; final := final o; emitted := emitted o |}
    | Returned a =>
        let o' := k a (final o) in
        {| result := result o'; final := final o'; emitted := emitted o ++ emitted o' |}
    end.

(** [try { body } catch (error) { handler }] *)
Definition try_catch {A} (body : M A) (handler : js_error -> M A) : M A :=
  fun w =>
    let o := body w in
    match result o with
    | Returned a => o
    | Thrown e =>
        let o' := handler e (final o) in
        {| result := result o'; final := final o'; emitted := emitted o ++ emitted o' |}
    end.

(** A pure expression that may throw. *)
Definition lift {A} (c : completion A) : M A :=
  fun w => {| result := c; final := w; emitted := [] |}.

Definition emit (e : event) : M unit :=
  fun w => {| result := Returned tt; final := w; emitted := [e] |}.

Declare Scope js_scope.
Delimit Scope js_scope with js.
Notation "'let*' x ':=' m 'in' k" := (bind m (fun x => k))
  (at level 10, x name, m at level 100, k at level 200) : js_scope.
Notation "m ';;' k" := (bind m (fun _ => k))
  (at level 100, k at level 200, right associativity) : js_scope.
Local Open Scope js_scope.

Definition console_log (args : list value) : M unit := emit (ConsoleLog args).
Definition console_error (args : list value) : M unit := emit (ConsoleError args).

(** A one-line [console.log] of a template literal. *)
Definition log_line (text : string) : M unit := console_log [Some (JStr text)].

Definition sleep (ms : Z) : M unit := emit (Sleep ms).

Definition axios_post (url : string) (body : json) : M json :=
  fun w => {| result := post_reply w url body; final := w;
              emitted := [HttpPost url body] |}.

(** The world once the next GET reply has been consumed. *)
Definition advance (w : world) : world :=
  {| post_reply := post_reply w;
     get_replies := fun i => get_replies w (S i);
     write_faults := write_faults w;
     files := files w |}.

Definition axios_get (url : string) : M json :=
  fun w => {| result := get_replies w 0%nat url;
              final := advance w;
              emitted := [HttpGet url] |}.

Definition fs_existsSync (path : string) : M bool :=
  fun w => {| result := Returned (bool_decide (is_Some (files w !! path)));
              final := w; emitted := [] |}.

Definition fs_readFileSync (path : string) : M string :=
  fun w => {| result := match files w !! path with
                        | Some data => Returned data
                        | None => Thrown (ENOENT "open" path)
                        end;
              final := w; emitted := [] |}.

(** The world once a write has stored [data] at [path]: overwriting
    truncates and replaces, and the next write is another one. *)
Definition store (path data : string) (w : world) : world :=
  {| post_reply := post_reply w;
     get_replies := get_replies w;
     write_faults := fun i => write_faults w (S i);
     files := <[path := data]> (files w) |}.

(** The first [n] bytes of [data]. *)
Definition written_part (n : nat) (data : string) : string :=
  String.substring 0 n data.

(** The files a failed write of [data] to [path] leaves behind. *)
Definition damaged (failure : write_failure) (path data : string)
    (fs : gmap string string) : gmap string string :=
  match failure with
  | OpenFails _ => fs
  | WriteFails _ n => <[path := written_part n data]> fs
  end.

(** The world once a write of [data] to [path] has failed. *)
Definition failed_write (failure : write_failure) (path data : string) (w : world)
    : world :=
  {| post_reply := post_reply w;
     get_replies := get_replies w;
     write_faults := fun i => write_faults w (S i);
     files := damaged failure path data (files w) |}.

Definition fs_writeFileSync (path data : string) : M unit :=
  fun w =>
    match write_faults w 0%nat path with
    | Some failure =>
        {| result := Thrown (failure_error failure);
           final := failed_write failure path data w;
           emitted := [FsWrite path data] |}
    | None => {| result := Returned tt; final := store path data w;
                 emitted := [FsWrite path data] |}
    end.

Definition when (b : bool) (m : M unit) : M unit := if b then m else ret tt.

(** [for (const x of l) body] and [l.forEach(body)] *)
Fixpoint for_each {A} (l : list A) (body : A -> M unit) : M unit :=
  match l with
  | [] => ret tt
  | x :: rest => body x ;; for_each rest body
  end.

Definition prop (o : value) (name : string) : M value := lift (get_prop o name).
Definition prop_opt (o : value) (name : string) : M value := lift (get_prop_opt o name).
Definition str (v : value) : M string := lift (to_string v).

Definition nl : string := String "010"%char "".

(** ** The client *)

Record REoptApiClient := {
  apiKey : string;
  baseUrl : string;
  inputsPath : string;
  outputsPath : string;
  loadsPath : string;
  ratesPath : string;
}.

Section Client.
Context `{JsRuntime}.

(** The constructor. Directories are not part of [world]: a write under a
    directory that is missing shows as a failure of the open. *)
Definition new_REoptApiClient (key : option string) : REoptApiClient :=
  {| apiKey := default "ZWDHHf8FBv9l0RM9eDbnETzYxQN9wbxet007ekBj" key;
     baseUrl := "https://developer.nrel.gov/api/reopt/stable";
     inputsPath := path_join "." "inputs";
     outputsPath := path_join "." "outputs";
     loadsPath := path_join "." "load_profiles";
     ratesPath := path_join "." "electric_rates" |}.

Definition jobUrl (c : REoptApiClient) : string :=
  baseUrl c +:+ "/job/?api_key=" +:+ apiKey c.

Definition resultsUrl (c : REoptApiClient) (runUuid : string) : string :=
  baseUrl c +:+ "/job/" +:+ runUuid +:+ "/results/?api_key=" +:+ apiKey c.

Definition maxAttempts : nat := 120.

(** [result.status === 'optimal' || result.status === 'error'] *)
Definition is_terminal (status : value) : bool :=
  strict_eq_str status "optimal" || strict_eq_str status "error".

(** The loop [while (attempts < maxAttempts) { ... attempts++ }], by
    recursion on [maxAttempts - attempts]. [Some result] is the
    [return result] inside the loop, [None] the normal exit. *)
Fixpoint poll_loop (c : REoptApiClient) (outputFileName url : string)
    (remaining : nat) : M (option json) :=
  match remaining with
  | O => ret None
  | S remaining' =>
      let* result := axios_get url in
      let* status := prop (Some result) "status" in
      if is_terminal status then
        let* s := str status in
        log_line ("Job completed with status: " +:+ s) ;;
        let outputPath := path_join (outputsPath c) (outputFileName +:+ ".json") in
        fs_writeFileSync outputPath (JSON_stringify result) ;;
        log_line ("Saved results to " +:+ outputPath) ;;
        ret (Some result)
      else
        let* s := str status in
        log_line ("Status: " +:+ s +:+ "... waiting...") ;;
        sleep 5000 ;;
        poll_loop c outputFileName url remaining'
  end.

(** The [try { ... }] block of [getApiResults]: submit, then poll. *)
Definition submit_and_poll (c : REoptApiClient) (postData : json)
    (outputFileName : string) : M json :=
  log_line "Submitting job to REopt API..." ;;
  let* data := axios_post (jobUrl c) postData in
  log_line ("Response OK from " +:+ jobUrl c) ;;
  let* runUuid := prop (Some data) "run_uuid" in
  let* uuid := str runUuid in
  log_line ("Run UUID: " +:+ uuid) ;;
  let url := resultsUrl c uuid in
  log_line ("Polling " +:+ url +:+ " for results with interval of 5s...") ;;
  let* returned := poll_loop c outputFileName url maxAttempts in
  match returned with
  | Some result => ret result
  | None => throw (Error "API polling timed out")
  end.

(** The [catch (error) { ... }] block: report, then rethrow the same error. *)
Definition report_and_rethrow (error : js_error) : M json :=
  let data := error_response_data error in
  console_error [Some (JStr "API error:");
                 if truthy data then data else Some (JStr (error_message error))] ;;
  throw error.

(** [getApiResults(postData, outputFileName = 'results_file', runId?)] *)
Definition getApiResults (c : REoptApiClient) (postData : json)
    (outputFileName : option string) (runId : option string) : M json :=
  try_catch
    (submit_and_poll c postData (default "results_file" outputFileName))
    report_and_rethrow.

(** [getResultsManually(runUuid)] *)
Definition getResultsManually (c : REoptApiClient) (runUuid : string) : M json :=
  axios_get (resultsUrl c runUuid).

Definition loadElectricRate (c : REoptApiClient) (rateName : string) : M json :=
  let ratePath := path_join (ratesPath c) (rateName +:+ ".json") in
  let* present := fs_existsSync ratePath in
  if present then
    let* rateData := fs_readFileSync ratePath in
    lift (JSON_parse rateData)
  else ret JNull.

Definition savePostData (c : REoptApiClient) (postData : json) (fileName : string) : M unit :=
  let filePath := path_join (inputsPath c) (fileName +:+ ".json") in
  fs_writeFileSync filePath (JSON_stringify postData) ;;
  log_line ("Saved POST data to " +:+ filePath).

Definition loadPostData (c : REoptApiClient) (fileName : string) : M json :=
  let filePath := path_join (inputsPath c) (fileName +:+ ".json") in
  let* data := fs_readFileSync filePath in
  lift (JSON_parse data).

Definition loadApiResponse (c : REoptApiClient) (fileName : string) : M json :=
  let filePath := path_join (outputsPath c) (fileName +:+ ".json") in
  let* data := fs_readFileSync filePath in
  lift (JSON_parse data).

Definition saveApiResponse (c : REoptApiClient) (response : json) (fileName : string) : M unit :=
  let filePath := path_join (outputsPath c) (fileName +:+ ".json") in
  fs_writeFileSync filePath (JSON_stringify response) ;;
  log_line ("Saved API response to " +:+ filePath).

Definition techList : list string :=
  ["PV"; "Wind"; "ElectricStorage"; "CHP"; "Generator";
   "HotThermalStorage"; "ColdThermalStorage"; "AbsorptionChiller";
   "GHP"; "Boiler"; "SteamTurbine"].

(** The body of [for (const tech of techList)]. *)
Definition print_tech (outputs : value) (tech : string) : M unit :=
  let* present := prop_opt outputs tech in
  when (truthy present)
    (let* techOutputs := prop outputs tech in
     let* chosen := (if String.eqb tech "GHP"
                     then prop techOutputs "ghpghx_chosen_outputs"
                     else ret (Some (JBool false))) in
     when (truthy chosen)
       (let* boreholes := prop chosen "number_of_boreholes" in
        let* sb := str boreholes in
        log_line ("GHX Number of Boreholes: " +:+ sb) ;;
        let* ton := prop chosen "peak_combined_heatpump_thermal_ton" in
        let* st := str ton in
        log_line ("GHP Heat Pump Capacity (ton): " +:+ st)) ;;
     let* keys := lift (object_keys techOutputs) in
     for_each keys (fun key =>
       when (includes key "size")
         (let* v := prop techOutputs key in
          let* sv := str v in
          log_line (tech +:+ " " +:+ key +:+ ": " +:+ sv)))).

(** [printResultsSummary(apiResponse)] *)
Definition printResultsSummary (apiResponse : json) : M unit :=
  let r := Some apiResponse in
  log_line (nl +:+ "=== REopt Results Summary ===") ;;
  let* status := prop r "status" in
  let* s := str status in
  log_line ("Status: " +:+ s) ;;
  let* run_uuid := prop r "run_uuid" in
  let* u := str run_uuid in
  log_line ("Run UUID: " +:+ u) ;;
  let* outputs := prop r "outputs" in
  let* financial := prop_opt outputs "Financial" in
  when (truthy financial)
    (let* npv := prop financial "npv" in
     let* sn := str npv in
     log_line ("NPV ($): " +:+ sn) ;;
     let* capital := prop financial "lifecycle_capital_costs" in
     let* sc := str capital in
     log_line ("Capital Cost, Net ($): " +:+ sc)) ;;
  for_each techList (print_tech outputs) ;;
  let* messages := prop r "messages" in
  when (truthy messages)
    (let* info := prop messages "info" in
     when (truthy info)
       (let* si := str info in
        log_line (nl +:+ "Info: " +:+ si)) ;;
     let* errors := prop messages "errors" in
     let* error_keys := lift (object_keys errors) in
     when (negb (Nat.eqb (length error_keys) 0))
       (console_log [Some (JStr "Errors:"); errors]) ;;
     let* warnings := prop messages "warnings" in
     let* warning_keys := lift (object_keys warnings) in
     when (negb (Nat.eqb (length warning_keys) 0))
       (console_log [Some (JStr "Warnings:"); warnings])) ;;
  when (truthy outputs)
    (log_line (nl +:+ "Available output categories:") ;;
     let* keys := lift (object_keys outputs) in
     for_each keys (fun key => log_line ("  " +:+ key))).

End Client.

(** ** An executable host runtime *)

(** [path.join(a, b)] for the segments the client joins: a directory name
    (or [.]) and a file name. Normalisation of separators and dot
    segments inside the segments is not modelled. *)
Definition node_path_join (a b : string) : string :=
  if String.eqb a "." then b else a +:+ "/" +:+ b.

Definition dquote : string := String "034"%char "".
Definition backslash : string := String "092"%char "".

Definition hex_digit (n : nat) : string :=
  match n with
  | 10%nat => "a" | 11%nat => "b" | 12%nat => "c"
  | 13%nat => "d" | 14%nat => "e" | 15%nat => "f"
  | _ => string_of_Z (Z.of_nat n)
  end.

(** One character inside a JSON string literal. *)
Definition escape_char (c : ascii) : string :=
  let n := nat_of_ascii c in
  if Nat.eqb n 34 then backslash +:+ dquote
  else if Nat.eqb n 92 then backslash +:+ backslash
  else if Nat.eqb n 8 then backslash +:+ "b"
  else if Nat.eqb n 12 then backslash +:+ "f"
  else if Nat.eqb n 10 then backslash +:+ "n"
  else if Nat.eqb n 13 then backslash +:+ "r"
  else if Nat.eqb n 9 then backslash +:+ "t"
  else if Nat.ltb n 32 then
    backslash +:+ "u00" +:+ hex_digit (n / 16) +:+ hex_digit (n mod 16)
  else String c "".

Fixpoint escape (s : string) : string :=
  match s with
  | EmptyString => ""
  | String c rest => escape_char c +:+ escape rest
  end.

Definition quote (s : string) : string := dquote +:+ escape s +:+ dquote.

(** [JSON.stringify(j, null, 2)] at a given current indentation. *)
Fixpoint stringify_at (indent : string) (j : json) : string :=
  match j with
  | JNull => "null"
  | JBool true => "true"
  | JBool false => "false"
  | JNum n => string_of_Z n
  | JStr s => quote s
  | JArr [] => "[]"
  | JArr items =>
      let inner := indent +:+ "  " in
      "[" +:+ nl +:+
      (fix elements (l : list json) : string :=
         match l with
         | [] => ""
         | x :: rest =>
             inner +:+ stringify_at inner x +:+
             match rest with
             | [] => ""
             | _ :: _ => "," +:+ nl +:+ elements rest
             end
         end) items
      +:+ nl +:+ indent +:+ "]"
  | JObj [] => "{}"
  | JObj props =>
      let inner := indent +:+ "  " in
      "{" +:+ nl +:+
      (fix members (l : list (string * json)) : string :=
         match l with
         | [] => ""
         | (k, v) :: rest =>
             inner +:+ quote k +:+ ": " +:+ stringify_at inner v +:+
             match rest with
             | [] => ""
             | _ :: _ => "," +:+ nl +:+ members rest
             end
         end) props
      +:+ nl +:+ indent +:+ "}"
  end.

Definition node_JSON_stringify (j : json) : string := stringify_at "" j.

(** *** Parsing *)

Definition is_ws (c : ascii) : bool :=
  let n := nat_of_ascii c in
  Nat.eqb n 32 || Nat.eqb n 9 || Nat.eqb n 10 || Nat.eqb n 13.

Fixpoint skip_ws (s : string) : string :=
  match s with
  | String c rest => if is_ws c then skip_ws rest else s
  | EmptyString => s
  end.

Definition digit_value (c : ascii) : option Z :=
  let n := nat_of_ascii c in
  if Nat.leb 48 n && Nat.leb n 57 then Some (Z.of_nat (n - 48)) else None.

Definition hex_value (c : ascii) : option nat :=
  let n := nat_of_ascii c in
  if Nat.leb 48 n && Nat.leb n 57 then Some (n - 48)%nat
  else if Nat.leb 97 n && Nat.leb n 102 then Some (n - 87)%nat
  else if Nat.leb 65 n && Nat.leb n 70 then Some (n - 55)%nat
  else None.

(** The rest of a run of digits, accumulated in base ten. *)
Fixpoint parse_digits (acc : Z) (s : string) : Z * string :=
  match s with
  | String c rest =>
      match digit_value c with
      | Some d => parse_digits (10 * acc + d) rest
      | None => (acc, s)
      end
  | EmptyString => (acc, s)
  end.

(** An integer literal; a leading zero stands alone, and a fraction or an
    exponent is outside the integers this model keeps. *)
Definition parse_number (s : string) : option (Z * string) :=
  let '(negative, s1) :=
    match s with
    | String "-" rest => (true, rest)
    | _ => (false, s)
    end in
  match s1 with
  | String c rest =>
      match digit_value c with
      | None => None
      | Some d =>
          let '(n, s2) := if d =? 0 then (0, rest) else parse_digits d rest in
          match s2 with
          | String c2 _ =>
              if (Nat.leb 48 (nat_of_ascii c2) && Nat.leb (nat_of_ascii c2) 57)
                 || Nat.eqb (nat_of_ascii c2) 46
                 || Nat.eqb (nat_of_ascii c2) 101 || Nat.eqb (nat_of_ascii c2) 69
              then None
              else Some (if negative then - n else n, s2)
          | EmptyString => Some (if negative then - n else n, s2)
          end
      end
  | EmptyString => None
  end.

(** The characters of a string literal after its opening quote, up to
    and including the closing one. Escapes above U+007F are outside the
    byte strings of this model. *)
Fixpoint parse_string_body (s : string) : option (string * string) :=
  match s with
  | EmptyString => None
  | String c rest =>
      let n := nat_of_ascii c in
      if Nat.eqb n 34 then Some ("", rest)
      else if Nat.ltb n 32 then None
      else if Nat.eqb n 92 then
        match rest with
        | String e rest' =>
            let m := nat_of_ascii e in
            let plain (ch : nat) :=
              match parse_string_body rest' with
              | Some (body, after) => Some (String (ascii_of_nat ch) body, after)
              | None => None
              end in
            if Nat.eqb m 34 then plain 34%nat
            else if Nat.eqb m 92 then plain 92%nat
            else if Nat.eqb m 47 then plain 47%nat
            else if Nat.eqb m 98 then plain 8%nat
            else if Nat.eqb m 102 then plain 12%nat
            else if Nat.eqb m 110 then plain 10%nat
            else if Nat.eqb m 114 then plain 13%nat
            else if Nat.eqb m 116 then plain 9%nat
            else if Nat.eqb m 117 then
              match rest' with
              | String h1 (String h2 (String h3 (String h4 rest''))) =>
                  match hex_value h1, hex_value h2, hex_value h3, hex_value h4 with
                  | Some 0%nat, Some 0%nat, Some d3, Some d4 =>
                      if Nat.ltb (16 * d3 + d4) 128 then
                        match parse_string_body rest'' with
                        | Some (body, after) =>
                            Some (String (ascii_of_nat (16 * d3 + d4)) body, after)
                        | None => None
                        end
                      else None
                  | _, _, _, _ => None
                  end
              | _ => None
              end
            else None
        | EmptyString => None
        end
      else
        match parse_string_body rest with
        | Some (body, after) => Some (String c body, after)
        | None => None
        end
  end.

(** A repeated key keeps its first position and takes the last value. *)
Fixpoint obj_set (k : string) (v : json) (ps : list (string * json)) : list (string * json) :=
  match ps with
  | [] => [(k, v)]
  | (k', v') :: rest =>
      if String.eqb k k' then (k, v) :: rest else (k', v') :: obj_set k v rest
  end.

Definition expect (word : string) (s : string) : option string :=
  if String.prefix word s
  then Some (String.substring (String.length word) (String.length s - String.length word) s)
  else None.

Fixpoint parse_value (fuel : nat) (s : string) : option (json * string) :=
  match fuel with
  | O => None
  | S fuel' =>
      match skip_ws s with
      | EmptyString => None
      | String c rest as s0 =>
          let n := nat_of_ascii c in
          if Nat.eqb n 110 then
            match expect "null" s0 with Some r => Some (JNull, r) | None => None end
          else if Nat.eqb n 116 then
            match expect "true" s0 with Some r => Some (JBool true, r) | None => None end
          else if Nat.eqb n 102 then
            match expect "false" s0 with Some r => Some (JBool false, r) | None => None end
          else if Nat.eqb n 34 then
            match parse_string_body rest with
            | Some (text, r) => Some (JStr text, r)
            | None => None
            end
          else if Nat.eqb n 91 then
            match skip_ws rest with
            | String "]" r => Some (JArr [], r)
            | _ =>
                match parse_elements fuel' rest with
                | Some (items, r) => Some (JArr items, r)
                | None => None
                end
            end
          else if Nat.eqb n 123 then
            match skip_ws rest with
            | String "}" r => Some (JObj [], r)
            | _ =>
                match parse_members fuel' [] rest with
                | Some (props, r) => Some (JObj props, r)
                | None => None
                end
            end
          else
            match parse_number s0 with
            | Some (z, r) => Some (JNum z, r)
            | None => None
            end
      end
  end
with parse_elements (fuel : nat) (s : string) : option (list json * string) :=
  match fuel with
  | O => None
  | S fuel' =>
      match parse_value fuel' s with
      | None => None
      | Some (x, r) =>
          match skip_ws r with
          | String "]" r' => Some ([x], r')
          | String "," r' =>
              match parse_elements fuel' r' with
              | Some (xs, r'') => Some (x :: xs, r'')
              | None => None
              end
          | _ => None
          end
      end
  end
with parse_members (fuel : nat) (acc : list (string * json)) (s : string)
    : option (list (string * json) * string) :=
  match fuel with
  | O => None
  | S fuel' =>
      match skip_ws s with
      | String c rest =>
          if Nat.eqb (nat_of_ascii c) 34 then
            match parse_string_body rest with
            | None => None
            | Some (k, r) =>
                match skip_ws r with
                | String ":" r' =>
                    match parse_value fuel' r' with
                    | None => None
                    | Some (v, r'') =>
                        match skip_ws r'' with
                        | String "}" r3 => Some (obj_set k v acc, r3)
                        | String "," r3 => parse_members fuel' (obj_set k v acc) r3
                        | _ => None
                        end
                    end
                | _ => None
                end
            end
          else None
      | EmptyString => None
      end
  end.

(** [JSON.parse(text)] *)
Definition node_JSON_parse (text : string) : completion json :=
  match parse_value (2 * String.length text + 2) text with
  | Some (j, r) =>
      match skip_ws r with
      | EmptyString => Returned j
      | String _ _ => Thrown (SyntaxError "Unexpected non-whitespace character after JSON")
      end
  | None => Thrown (SyntaxError "Unexpected token in JSON")
  end.

#[export] Instance node_runtime : JsRuntime := {|
  path_join := node_path_join;
  JSON_stringify := node_JSON_stringify;
  JSON_parse := node_JSON_parse;
|}.

(** ** Observing a run *)

Definition is_post (e : event) : bool :=
  match e with HttpPost _ _ => true | _ => false end.
Definition is_get (e : event) : bool :=
  match e with HttpGet _ => true | _ => false end.
Definition is_sleep (e : event) : bool :=
  match e with Sleep _ => true | _ => false end.
Definition is_write (e : event) : bool :=
  match e with FsWrite _ _ => true | _ => false end.

Fixpoint count (p : event -> bool) (evs : list event) : nat :=
  match evs with
  | [] => O
  | e :: rest => if p e then S (count p rest) else count p rest
  end.

(** Number of submit calls, status fetches, sleeps and file writes. *)
Definition submits (evs : list event) : nat := count is_post evs.
Definition fetches (evs : list event) : nat := count is_get evs.
Definition sleeps (evs : list event) : nat := count is_sleep evs.
Definition writes (evs : list event) : nat := count is_write evs.

(** The same outcome with [evs] emitted first. *)
Definition after {A} (evs : list event) (o : outcome A) : outcome A :=
  {| result := result o; final := final o; emitted := evs ++ emitted o |}.

(** A fetch after which the loop goes round again: it delivered a
    document whose [status] is neither terminal string and can be printed
    in the waiting message. *)
Definition still_running (reply : completion json) : bool :=
  match reply with
  | Returned doc =>
      match get_prop (Some doc) "status" with
      | Returned status =>
          negb (is_terminal status)
          && match to_string status with Returned _ => true | Thrown _ => false end
      | Thrown _ => false
      end
  | Thrown _ => false
  end.

(** A fetch that delivered a document with the given [status] string. *)
Definition has_status (reply : completion json) (status : string) : bool :=
  match reply with
  | Returned doc =>
      match get_prop (Some doc) "status" with
      | Returned v => strict_eq_str v status
      | Thrown _ => false
      end
  | Thrown _ => false
  end.

(** The job handle a submission comes back with: the printed
    [run_uuid] of the service's answer. *)
Definition assigned_handle (c : REoptApiClient) (postData : json) (w : world)
    : completion string :=
  match post_reply w (jobUrl c) postData with
  | Returned data =>
      match get_prop (Some data) "run_uuid" with
      | Returned runUuid => to_string runUuid
      | Thrown e => Thrown e
      end
  | Thrown e => Thrown e
  end.

(** Whether the text of an error mentions a job handle. An [Error] built
    by [new Error(message)] holds nothing but its message. *)
Definition names_handle (e : js_error) (handle : string) : bool :=
  includes (error_message e) handle.

(** A fetch that delivered a document with a terminal status. *)
Definition finished (reply : completion json) : bool :=
  has_status reply "optimal" || has_status reply "error".

(** The addresses of the status fetches, in order. *)
Fixpoint fetched_urls (evs : list event) : list string :=
  match evs with
  | [] => []
  | HttpGet url :: rest => url :: fetched_urls rest
  | _ :: rest => fetched_urls rest
  end.

(** What [submit_and_poll] emits up to the start of the loop, once the
    service has accepted the job under [handle]. *)
Definition submission_events (c : REoptApiClient) (postData : json) (handle : string)
    : list event :=
  [ConsoleLog [Some (JStr "Submitting job to REopt API...")];
   HttpPost (jobUrl c) postData;
   ConsoleLog [Some (JStr ("Response OK from " +:+ jobUrl c))];
   ConsoleLog [Some (JStr ("Run UUID: " +:+ handle))];
   ConsoleLog [Some (JStr ("Polling " +:+ resultsUrl c handle
                           +:+ " for results with interval of 5s..."))]].

(** The adapter raises [e]: either the submission is rejected ([0]
    fetches are made), or the job is accepted and, after [k] fetches that
    were still running, fetch number [S k] is rejected. *)
Inductive adapter_failure (c : REoptApiClient) (postData : json) (w : world)
    : js_error -> nat -> Prop :=
| submit_failure (e : js_error) :
    post_reply w (jobUrl c) postData = Thrown e ->
    adapter_failure c postData w e O
| fetch_failure (e : js_error) (handle : string) (k : nat) :
    assigned_handle c postData w = Returned handle ->
    (k < maxAttempts)%nat ->
    (forall i, (i < k)%nat ->
       still_running (get_replies w i (resultsUrl c handle)) = true) ->
    get_replies w k (resultsUrl c handle) = Thrown e ->
    adapter_failure c postData w e (S k).

(** *** The store, as the specification names it *)

(** The categories the client has a load for, each with its directory. *)
Inductive category := Request | Response | Rate.

Definition store_path `{JsRuntime} (c : REoptApiClient) (cat : category) (name : string)
    : string :=
  path_join
    match cat with
    | Request => inputsPath c
    | Response => outputsPath c
    | Rate => ratesPath c
    end
    (name +:+ ".json").

Definition store_load `{JsRuntime} (c : REoptApiClient) (cat : category) (name : string)
    : M json :=
  match cat with
  | Request => loadPostData c name
  | Response => loadApiResponse c name
  | Rate => loadElectricRate c name
  end.

(** The client saves requests and responses; it has no save for rates. *)
Definition store_save `{JsRuntime} (c : REoptApiClient) (cat : category) (name : string)
    (doc : json) : option (M unit) :=
  match cat with
  | Request => Some (savePostData c doc name)
  | Response => Some (saveApiResponse c doc name)
  | Rate => None
  end.

(** ** Sample data *)

Definition sample_client : REoptApiClient := new_REoptApiClient None.

Definition sample_request : json :=
  JObj [("Site", JObj [("latitude", JNum 34); ("longitude", JNum (-118))]);
        ("ElectricLoad", JObj [("annual_kwh", JNum 100000)])].

Definition submitted (handle : string) : json :=
  JObj [("run_uuid", JStr handle); ("status", JStr "Optimizing...")].

Definition running_doc : json := JObj [("status", JStr "Running")].

Definition optimal_doc : json :=
  JObj [("status", JStr "optimal");
        ("outputs", JObj [("Financial", JObj [("npv", JNum 50000)])])].

(** A service that accepts every submission with the same handle and
    answers the [i]-th status fetch with [Running] while [i < k], then
    with the finished document; every file can be written. *)
Definition scripted (handle : string) (k : nat) : world :=
  {| post_reply := fun _ _ => Returned (submitted handle);
     get_replies := fun i _ => Returned (if Nat.ltb i k then running_doc else optimal_doc);
     write_faults := fun _ _ => None;
     files := ∅ |}.

(** A job that never finishes. *)
Definition stuck (handle : string) : world :=
  {| post_reply := fun _ _ => Returned (submitted handle);
     get_replies := fun _ _ => Returned running_doc;
     write_faults := fun _ _ => None;
     files := ∅ |}.

(** The error axios rejects with when the service answers 400. *)
Definition bad_request : js_error :=
  AxiosError "Request failed with status code 400"
    (Some (JObj [("messages", JObj [("error", JStr "Invalid inputs")])])).

(** A service that rejects every submission. *)
Definition rejecting : world :=
  {| post_reply := fun _ _ => Thrown bad_request;
     get_replies := fun _ _ => Returned running_doc;
     write_faults := fun _ _ => None;
     files := ∅ |}.

(** A transport failure, with no response attached. *)
Definition socket_hang_up : js_error := AxiosError "socket hang up" undefined.

(** A service whose connection drops at fetch number [S k]. *)
Definition flaky (handle : string) (k : nat) : world :=
  {| post_reply := fun _ _ => Returned (submitted handle);
     get_replies := fun i _ => if Nat.ltb i k then Returned running_doc
                               else Thrown socket_hang_up;
     write_faults := fun _ _ => None;
     files := ∅ |}.

(** A response whose [messages] block has a [null] error list. *)
Definition null_errors_response : json :=
  JObj [("run_uuid", JStr "abc-123");
        ("status", JStr "optimal");
        ("outputs", JObj [("Financial", JObj [("npv", JNum 50000)])]);
        ("messages", JObj [("info", JStr ""); ("errors", JNull);
                           ("warnings", JObj []); ("has_stacktrace", JBool false)])].

(** ** Further observations *)

Definition is_console_error (e : event) : bool :=
  match e with ConsoleError _ => true | _ => false end.
Definition is_console_log (e : event) : bool :=
  match e with ConsoleLog _ => true | _ => false end.

(** Number of [console.error] calls. *)
Definition reports (evs : list event) : nat := count is_console_error evs.

(** The time asked of the timer, in milliseconds, over all sleeps. *)
Fixpoint slept_ms (evs : list event) : Z :=
  match evs with
  | [] => 0
  | Sleep ms :: rest => ms + slept_ms rest
  | _ :: rest => slept_ms rest
  end.

(** The requests sent, in order. *)
Fixpoint posted (evs : list event) : list (string * json) :=
  match evs with
  | [] => []
  | HttpPost url body :: rest => (url, body) :: posted rest
  | _ :: rest => posted rest
  end.

(** The file writes issued, in order. *)
Fixpoint written (evs : list event) : list (string * string) :=
  match evs with
  | [] => []
  | FsWrite path data :: rest => (path, data) :: written rest
  | _ :: rest => written rest
  end.

(** The lines printed by one-line [console.log] calls, in order. *)
Fixpoint printed (evs : list event) : list string :=
  match evs with
  | [] => []
  | ConsoleLog [Some (JStr line)] :: rest => line :: printed rest
  | _ :: rest => printed rest
  end.

(** [v == null]: the two values [Object.keys] and a property read reject. *)
Definition nullish (v : value) : bool :=
  match v with
  | None | Some JNull => true
  | Some _ => false
  end.

(** [o.name] where the read cannot throw, [undefined] otherwise. *)
Definition field (o : value) (name : string) : value :=
  match get_prop o name with
  | Returned v => v
  | Thrown _ => undefined
  end.

(** A document none of whose objects has an own key [toString]: every
    value in it can be printed by a template literal. *)
Fixpoint plain (j : json) : bool :=
  match j with
  | JArr items => forallb plain items
  | JObj props =>
      match assoc "toString" props with Some _ => false | None => true end
      && forallb (fun kv => plain (snd kv)) props
  | _ => true
  end.

(** The [messages] block of a response is there but one of its two
    lists, [errors] or [warnings], is [null] or missing. *)
Definition broken_messages (apiResponse : json) : bool :=
  let messages := field (Some apiResponse) "messages" in
  truthy messages
  && (nullish (field messages "errors") || nullish (field messages "warnings")).

Definition plain_value (v : value) : bool :=
  match v with
  | None => true
  | Some j => plain j
  end.

(** A computation that only prints: it leaves the world as it found it
    and emits nothing but [console.log] calls. *)
Definition quiet {A} (m : M A) : Prop :=
  forall w, final (m w) = w /\ forallb is_console_log (emitted (m w)) = true.


(** The path [getApiResults] writes the result to. *)
Definition outputPath `{JsRuntime} (c : REoptApiClient) (outputFileName : option string)
    : string :=
  path_join (outputsPath c) (default "results_file" outputFileName +:+ ".json").

(** The runs of the polling loop, as a derivation: with no attempt left
    the loop exits; a round whose fetch, status read or waiting message
    throws ends the loop with that error; a round that sees a terminal
    status writes the document and returns it, or throws the error of the
    write, which leaves the file as the failure left it; any other round
    waits and hands over to the rest of the loop. *)
Inductive poll_run `{JsRuntime} (c : REoptApiClient) (f url : string)
    : nat -> world -> outcome (option json) -> Prop :=
| run_exhausted (w : world) :
    poll_run c f url O w {| result := Returned None; final := w; emitted := [] |}
| run_thrown (r : nat) (w : world) (e : js_error) :
    still_running (get_replies w 0%nat url) = false ->
    finished (get_replies w 0%nat url) = false ->
    poll_run c f url (S r) w
      {| result := Thrown e; final := advance w; emitted := [HttpGet url] |}
| run_returned (r : nat) (w : world) (doc : json) (line saved : string) :
    get_replies w 0%nat url = Returned doc ->
    finished (Returned doc) = true ->
    write_fault w (path_join (outputsPath c) (f +:+ ".json")) = None ->
    poll_run c f url (S r) w
      {| result := Returned (Some doc);
         final := store (path_join (outputsPath c) (f +:+ ".json"))
                    (JSON_stringify doc) (advance w);
         emitted := [HttpGet url; ConsoleLog [Some (JStr line)];
                     FsWrite (path_join (outputsPath c) (f +:+ ".json"))
                       (JSON_stringify doc);
                     ConsoleLog [Some (JStr saved)]] |}
| run_unwritten (r : nat) (w : world) (doc : json) (line : string)
    (failure : write_failure) :
    get_replies w 0%nat url = Returned doc ->
    finished (Returned doc) = true ->
    write_faults w 0%nat (path_join (outputsPath c) (f +:+ ".json")) = Some failure ->
    poll_run c f url (S r) w
      {| result := Thrown (failure_error failure);
         final := failed_write failure (path_join (outputsPath c) (f +:+ ".json"))
                    (JSON_stringify doc) (advance w);
         emitted := [HttpGet url; ConsoleLog [Some (JStr line)];
                     FsWrite (path_join (outputsPath c) (f +:+ ".json"))
                       (JSON_stringify doc)] |}
| run_waited (r : nat) (w : world) (line : string) (o : outcome (option json)) :
    still_running (get_replies w 0%nat url) = true ->
    poll_run c f url r (advance w) o ->
    poll_run c f url (S r) w
      (after [HttpGet url; ConsoleLog [Some (JStr line)]; Sleep 5000] o).

(** The service accepts the request and the job reaches the terminal
    document [doc] within the attempts the loop has: after [k] fetches
    that are still running, fetch number [S k] delivers [doc]. *)
Definition finishes_with (c : REoptApiClient) (postData : json) (w : world) (doc : json)
    : Prop :=
  exists handle k,
    assigned_handle c postData w = Returned handle
    /\ (k < maxAttempts)%nat
    /\ (forall i, (i < k)%nat ->
          still_running (get_replies w i (resultsUrl c handle)) = true)
    /\ get_replies w k (resultsUrl c handle) = Returned doc
    /\ finished (Returned doc) = true.

(** The [try] block of [runSingleScenarioExample], for a client and a
    scenario document already built ([post1] stands for what
    [createSampleScenario()] returns). *)
Definition runSingleScenario_try `{JsRuntime} (client : REoptApiClient) (post1 : json)
    : M unit :=
  log_line "Created sample scenario input" ;;
  savePostData client post1 "post_2" ;;
  let* loadedPost := loadPostData client "post_2" in
  log_line "Loaded POST data from file" ;;
  log_line (nl +:+ "Submitting job to REopt API...") ;;
  let* apiResponse := getApiResults client loadedPost (Some "results_file") None in
  printResultsSummary apiResponse ;;
  saveApiResponse client apiResponse "response_2".

(** *** More sample worlds *)

(** A service that answers every submission with [reply] and reports
    every job as running. *)
Definition answering (reply : completion json) : world :=
  {| post_reply := fun _ _ => reply;
     get_replies := fun _ _ => Returned running_doc;
     write_faults := fun _ _ => None;
     files := ∅ |}.

(** A job that reports [Running] for [k] fetches and then delivers [doc]. *)
Definition delivering (handle : string) (k : nat) (doc : json) : world :=
  {| post_reply := fun _ _ => Returned (submitted handle);
     get_replies := fun i _ => Returned (if Nat.ltb i k then running_doc else doc);
     write_faults := fun _ _ => None;
     files := ∅ |}.

Definition permission_denied : js_error :=
  FsError "EACCES" "EACCES: permission denied".

(** The same world on a disk that refuses every write. *)
Definition write_protected (w : world) : world :=
  {| post_reply := post_reply w;
     get_replies := get_replies w;
     write_faults := fun _ _ => Some (OpenFails permission_denied);
     files := files w |}.

Definition disk_full : js_error :=
  FsError "ENOSPC" "ENOSPC: no space left on device, write".

(** A job that is finished at the first fetch, on a disk that holds the
    result of an earlier run and runs full as soon as a file is opened. *)
Definition full_disk : world :=
  {| post_reply := fun _ _ => Returned (submitted "abc-123");
     get_replies := fun _ _ => Returned optimal_doc;
     write_faults := fun _ _ => Some (WriteFails disk_full 0);
     files := {[ "outputs/results_file.json" := "{ }" ]} |}.

(** A disk on which the first write succeeds and the second one fails. *)
Definition failing_second_write (w : world) : world :=
  {| post_reply := post_reply w;
     get_replies := get_replies w;
     write_faults := fun i _ => match i with
                                | 1%nat => Some (OpenFails permission_denied)
                                | _ => None
                                end;
     files := files w |}.

(** A world whose request file [inputs/post_2.json] holds [data]. *)
Definition holding (data : string) : world :=
  {| post_reply := fun _ _ => Returned (submitted "abc-123");
     get_replies := fun _ _ => Returned running_doc;
     write_faults := fun _ _ => None;
     files := {[ "inputs/post_2.json" := data ]} |}.

(** ** Facts about the polling loop *)

Section PollingFacts.
Context `{JsRuntime}.

Lemma count_app (p : event -> bool) (a b : list event) :
  count p (a ++ b) = (count p a + count p b)%nat.
Proof.
  induction a as [|e a IH]; simpl; [reflexivity|].
  destruct (p e); simpl; rewrite IH; reflexivity.
Qed.

Lemma fetched_urls_app (a b : list event) :
  fetched_urls (a ++ b) = (fetched_urls a ++ fetched_urls b)%list.
Proof.
  induction a as [|e a IH]; simpl; [reflexivity|].
  destruct e; simpl; now rewrite IH.
Qed.

Lemma after_after {A} (a b : list event) (o : outcome A) :
  after a (after b o) = after (a ++ b) o.
Proof. unfold after; simpl. now rewrite app_assoc. Qed.

Lemma after_nil {A} (o : outcome A) : after [] o = o.
Proof. now destruct o. Qed.

(** Consuming [k] replies shifts the script by [k] and touches nothing else. *)
Lemma get_replies_advance (k i : nat) (w : world) (url : string) :
  get_replies (Nat.iter k advance w) i url = get_replies w (k + i) url.
Proof.
  revert i; induction k as [|k IH]; intros i; simpl; [reflexivity|].
  rewrite IH. f_equal. lia.
Qed.

Lemma write_faults_advance (k : nat) (w : world) :
  write_faults (Nat.iter k advance w) = write_faults w.
Proof. induction k as [|k IH]; simpl; auto. Qed.

Lemma write_fault_advance (k : nat) (w : world) :
  write_fault (Nat.iter k advance w) = write_fault w.
Proof. unfold write_fault. now rewrite write_faults_advance. Qed.

Lemma write_fault_none (w : world) (path : string) :
  write_fault w path = None <-> write_faults w 0%nat path = None.
Proof. unfold write_fault. destruct (write_faults w 0%nat path); split; congruence. Qed.

Lemma files_advance (k : nat) (w : world) :
  files (Nat.iter k advance w) = files w.
Proof. induction k as [|k IH]; simpl; auto. Qed.

Lemma iter_advance_shift (k : nat) (w : world) :
  Nat.iter k advance (advance w) = advance (Nat.iter k advance w).
Proof. induction k as [|k IH]; simpl; [reflexivity|now rewrite IH]. Qed.

(** How [bind] runs after each primitive. *)
Lemma bind_lift_returned {A B} (a : A) (k : A -> M B) (w : world) :
  bind (lift (Returned a)) k w = k a w.
Proof. unfold bind, lift; simpl. now destruct (k a w). Qed.

Lemma bind_lift_thrown {A B} (e : js_error) (k : A -> M B) (w : world) :
  bind (lift (Thrown e)) k w = throw e w.
Proof. reflexivity. Qed.

Lemma bind_ret {A B} (a : A) (k : A -> M B) (w : world) :
  bind (ret a) k w = k a w.
Proof. apply bind_lift_returned. Qed.

Lemma bind_emit {B} (e : event) (k : unit -> M B) (w : world) :
  bind (emit e) k w = after [e] (k tt w).
Proof. reflexivity. Qed.

Lemma bind_axios_get {B} (url : string) (k : json -> M B) (w : world) (doc : json) :
  get_replies w 0%nat url = Returned doc ->
  bind (axios_get url) k w = after [HttpGet url] (k doc (advance w)).
Proof. intros Hget. unfold bind, axios_get; simpl. now rewrite Hget. Qed.

Lemma bind_axios_get_thrown {B} (url : string) (k : json -> M B) (w : world) (e : js_error) :
  get_replies w 0%nat url = Thrown e ->
  bind (axios_get url) k w = after [HttpGet url] (throw e (advance w)).
Proof. intros Hget. unfold bind, axios_get; simpl. now rewrite Hget. Qed.

Lemma bind_axios_post {B} (url : string) (body : json) (k : json -> M B) (w : world)
    (data : json) :
  post_reply w url body = Returned data ->
  bind (axios_post url body) k w = after [HttpPost url body] (k data w).
Proof. intros Hpost. unfold bind, axios_post; simpl. now rewrite Hpost. Qed.

Lemma bind_axios_post_thrown {B} (url : string) (body : json) (k : json -> M B) (w : world)
    (e : js_error) :
  post_reply w url body = Thrown e ->
  bind (axios_post url body) k w = after [HttpPost url body] (throw e w).
Proof. intros Hpost. unfold bind, axios_post; simpl. now rewrite Hpost. Qed.

Lemma bind_read {B} (path : string) (k : string -> M B) (w : world) (data : string) :
  files w !! path = Some data ->
  bind (fs_readFileSync path) k w = k data w.
Proof.
  intros Hfile. unfold bind, fs_readFileSync; simpl. rewrite Hfile.
  now destruct (k data w).
Qed.

Lemma bind_write {B} (path data : string) (k : unit -> M B) (w : world) :
  write_fault w path = None ->
  bind (fs_writeFileSync path data) k w
  = after [FsWrite path data] (k tt (store path data w)).
Proof.
  intros Hok. apply write_fault_none in Hok.
  unfold bind, fs_writeFileSync; simpl. now rewrite Hok.
Qed.

Lemma bind_write_thrown {B} (path data : string) (k : unit -> M B) (w : world)
    (failure : write_failure) :
  write_faults w 0%nat path = Some failure ->
  bind (fs_writeFileSync path data) k w
  = after [FsWrite path data]
      (throw (failure_error failure) (failed_write failure path data w)).
Proof. intros Hko. unfold bind, fs_writeFileSync; simpl. now rewrite Hko. Qed.

(** One round of the loop on a status that is not terminal: the fetch, the
    waiting message, the sleep, and the loop again with one attempt less. *)
Lemma poll_loop_waits (c : REoptApiClient) (f url : string) (r : nat) (w : world)
    (doc : json) (status : value) (s : string) :
  get_replies w 0%nat url = Returned doc ->
  get_prop (Some doc) "status" = Returned status ->
  is_terminal status = false ->
  to_string status = Returned s ->
  poll_loop c f url (S r) w
  = after [HttpGet url;
           ConsoleLog [Some (JStr ("Status: " +:+ s +:+ "... waiting..."))];
           Sleep 5000]
      (poll_loop c f url r (advance w)).
Proof.
  intros Hget Hstatus Hterm Hs.
  cbn [poll_loop]. rewrite (bind_axios_get _ _ _ _ Hget).
  unfold prop, str. rewrite Hstatus, bind_lift_returned, Hterm, Hs, bind_lift_returned.
  unfold log_line, console_log, sleep. rewrite !bind_emit, !after_after.
  reflexivity.
Qed.

Lemma poll_loop_running (c : REoptApiClient) (f url : string) (r : nat) (w : world) :
  still_running (get_replies w 0%nat url) = true ->
  exists line,
    poll_loop c f url (S r) w
    = after [HttpGet url; ConsoleLog [Some (JStr line)]; Sleep 5000]
        (poll_loop c f url r (advance w)).
Proof.
  unfold still_running. intros Hrun.
  destruct (get_replies w 0%nat url) as [doc|] eqn:Hget; [|discriminate].
  destruct (get_prop (Some doc) "status") as [status|] eqn:Hstatus; [|discriminate].
  apply andb_true_iff in Hrun as [Hterm Hprint].
  apply negb_true_iff in Hterm.
  destruct (to_string status) as [s|] eqn:Hs; [|discriminate].
  eexists. eapply poll_loop_waits; eassumption.
Qed.

(** [k] rounds in a row: [k] fetches, each followed by one sleep, the
    last event being a sleep. *)
Lemma poll_loop_rounds (c : REoptApiClient) (f url : string) (k r : nat) (w : world) :
  (forall i, (i < k)%nat -> still_running (get_replies w i url) = true) ->
  exists evs,
    poll_loop c f url (k + r) w = after evs (poll_loop c f url r (Nat.iter k advance w))
    /\ fetches evs = k /\ sleeps evs = k /\ submits evs = O /\ writes evs = O
    /\ fetched_urls evs = repeat url k
    /\ match k with
       | O => evs = []
       | S _ => exists before, evs = (before ++ [Sleep 5000])%list
       end.
Proof.
  revert w. induction k as [|k IH]; intros w Hrun.
  - exists []. rewrite after_nil. repeat split; reflexivity.
  - destruct (poll_loop_running c f url (k + r) w) as [line Hstep].
    { apply Hrun; lia. }
    destruct (IH (advance w)) as (evs & Hrest & Hf & Hs & Hp & Hw & Hu & Hlast).
    { intros i Hi. apply (Hrun (S i)). lia. }
    exists ([HttpGet url; ConsoleLog [Some (JStr line)]; Sleep 5000] ++ evs)%list.
    split; [|split; [|split; [|split; [|split; [|split]]]]].
    + change (S k + r)%nat with (S (k + r)). rewrite Hstep, Hrest, after_after.
      rewrite iter_advance_shift. reflexivity.
    + unfold fetches in *. rewrite count_app, Hf. reflexivity.
    + unfold sleeps in *. rewrite count_app, Hs. reflexivity.
    + unfold submits in *. rewrite count_app, Hp. reflexivity.
    + unfold writes in *. rewrite count_app, Hw. reflexivity.
    + simpl. now rewrite Hu.
    + destruct k as [|k'].
      * subst evs. now exists [HttpGet url; ConsoleLog [Some (JStr line)]].
      * destruct Hlast as [before ->].
        exists ([HttpGet url; ConsoleLog [Some (JStr line)]; Sleep 5000] ++ before)%list.
        now rewrite <- app_assoc.
Qed.

Lemma terminal_status_prints (status : value) :
  is_terminal status = true ->
  exists s, status = Some (JStr s) /\ to_string status = Returned s
            /\ (s = "optimal" \/ s = "error").
Proof.
  unfold is_terminal, strict_eq_str. intros Hterm.
  destruct status as [[| | |s| |]|]; try discriminate.
  exists s. repeat split.
  apply orb_true_iff in Hterm as [Heq|Heq]; apply String.eqb_eq in Heq; auto.
Qed.

(** The round that sees a terminal status: the fetch, one message, and
    then the write of the document; no sleep and no further fetch. *)
Lemma poll_loop_terminal (c : REoptApiClient) (f url : string) (r : nat) (w : world)
    (doc : json) (status : value) :
  get_replies w 0%nat url = Returned doc ->
  get_prop (Some doc) "status" = Returned status ->
  is_terminal status = true ->
  let path := path_join (outputsPath c) (f +:+ ".json") in
  exists line saved,
    poll_loop c f url (S r) w
    = after [HttpGet url; ConsoleLog [Some (JStr line)]]
        match write_faults w 0%nat path with
        | None =>
            {| result := Returned (Some doc);
               final := store path (JSON_stringify doc) (advance w);
               emitted := [FsWrite path (JSON_stringify doc); ConsoleLog [Some (JStr saved)]] |}
        | Some failure =>
            {| result := Thrown (failure_error failure);
               final := failed_write failure path (JSON_stringify doc) (advance w);
               emitted := [FsWrite path (JSON_stringify doc)] |}
        end.
Proof.
  intros Hget Hstatus Hterm path.
  destruct (terminal_status_prints status Hterm) as (s & _ & Hs & _).
  exists ("Job completed with status: " +:+ s), ("Saved results to " +:+ path).
  cbn [poll_loop]. rewrite (bind_axios_get _ _ _ _ Hget).
  unfold prop, str. rewrite Hstatus, bind_lift_returned, Hterm, Hs, bind_lift_returned.
  unfold log_line at 1. unfold console_log. rewrite bind_emit, after_after.
  fold path. f_equal.
  change (write_faults w 0%nat path) with (write_faults (advance w) 0%nat path).
  destruct (write_faults (advance w) 0%nat path) as [failure|] eqn:Hfault.
  - rewrite (bind_write_thrown _ _ _ _ _ Hfault). reflexivity.
  - apply write_fault_none in Hfault. rewrite (bind_write _ _ _ _ Hfault). reflexivity.
Qed.

(** The round whose fetch is rejected: the error leaves the loop at once. *)
Lemma poll_loop_fetch_thrown (c : REoptApiClient) (f url : string) (r : nat) (w : world)
    (e : js_error) :
  get_replies w 0%nat url = Thrown e ->
  poll_loop c f url (S r) w
  = {| result := Thrown e; final := advance w; emitted := [HttpGet url] |}.
Proof.
  intros Hget. cbn [poll_loop]. rewrite (bind_axios_get_thrown _ _ _ _ Hget). reflexivity.
Qed.

(** The loop runs out of attempts: every fetch was followed by a sleep. *)
Lemma poll_loop_exhausted (c : REoptApiClient) (f url : string) (n : nat) (w : world) :
  (forall i, (i < n)%nat -> still_running (get_replies w i url) = true) ->
  exists evs,
    poll_loop c f url n w
    = {| result := Returned None; final := Nat.iter n advance w; emitted := evs |}
    /\ fetches evs = n /\ sleeps evs = n /\ submits evs = O /\ writes evs = O
    /\ match n with
       | O => evs = []
       | S _ => exists before, evs = (before ++ [Sleep 5000])%list
       end.
Proof.
  intros Hrun.
  destruct (poll_loop_rounds c f url n 0 w Hrun)
    as (evs & Hloop & Hf & Hs & Hp & Hw & _ & Hlast).
  exists evs. rewrite Nat.add_0_r in Hloop. rewrite Hloop.
  split; [|tauto].
  cbn [poll_loop]. unfold after, ret; simpl. now rewrite app_nil_r.
Qed.

(** The loop meets a terminal status at fetch number [S k]. *)
Lemma poll_loop_finished (c : REoptApiClient) (f url : string) (n k : nat) (w : world)
    (doc : json) :
  (k < n)%nat ->
  (forall i, (i < k)%nat -> still_running (get_replies w i url) = true) ->
  get_replies w k url = Returned doc ->
  finished (Returned doc) = true ->
  let path := path_join (outputsPath c) (f +:+ ".json") in
  let o := poll_loop c f url n w in
  fetches (emitted o) = S k /\ sleeps (emitted o) = k /\ submits (emitted o) = O
  /\ writes (emitted o) = 1%nat
  /\ In (FsWrite path (JSON_stringify doc)) (emitted o)
  /\ fetched_urls (emitted o) = repeat url (S k)
  /\ match write_faults w 0%nat path with
     | None => result o = Returned (Some doc)
               /\ files (final o) = <[path := JSON_stringify doc]> (files w)
     | Some failure =>
         result o = Thrown (failure_error failure)
         /\ files (final o) = damaged failure path (JSON_stringify doc) (files w)
     end.
Proof.
  intros Hk Hrun Hget Hfin path o.
  destruct (poll_loop_rounds c f url k (n - k) w Hrun)
    as (evs & Hloop & Hf & Hs & Hp & Hw & Hu & _).
  replace (k + (n - k))%nat with n in Hloop by lia.
  assert (Hstatus : exists status,
             get_prop (Some doc) "status" = Returned status /\ is_terminal status = true).
  { unfold finished, has_status in Hfin.
    destruct (get_prop (Some doc) "status") as [status|]; [|discriminate].
    exists status. split; [reflexivity|exact Hfin]. }
  destruct Hstatus as (status & Hstatus & Hterm).
  destruct (n - k)%nat as [|r] eqn:Hr; [lia|].
  destruct (poll_loop_terminal c f url r (Nat.iter k advance w) doc status)
    as (line & saved & Hend); auto.
  { rewrite get_replies_advance, Nat.add_0_r. exact Hget. }
  rewrite write_faults_advance in Hend. fold path in Hend.
  subst o. rewrite Hloop, Hend, after_after. clear Hloop Hend.
  unfold fetches, sleeps, submits, writes in *.
  assert (Hurls : forall tail, fetched_urls tail = [] ->
            fetched_urls ((evs ++ [HttpGet url; ConsoleLog [Some (JStr line)]]) ++ tail)
            = repeat url (S k)).
  { intros tail Htail. rewrite !fetched_urls_app, Hu, Htail. simpl.
    rewrite app_nil_r. symmetry. apply repeat_cons. }
  destruct (write_faults w 0%nat path) as [failure|];
    cbn [emitted result final after files store failed_write advance];
    rewrite !count_app, Hf, Hs, Hp, Hw; cbn [count is_get is_sleep is_post is_write].
  - split; [lia|]. split; [lia|]. split; [lia|]. split; [lia|].
    split; [apply in_or_app; right; simpl; tauto|].
    split; [now apply Hurls|].
    split; [reflexivity|]. now rewrite files_advance.
  - split; [lia|]. split; [lia|]. split; [lia|]. split; [lia|].
    split; [apply in_or_app; right; simpl; tauto|].
    split; [now apply Hurls|].
    split; [reflexivity|]. now rewrite files_advance.
Qed.

(** The loop meets a rejected fetch at fetch number [S k]. *)
Lemma poll_loop_fetch_fails (c : REoptApiClient) (f url : string) (n k : nat) (w : world)
    (e : js_error) :
  (k < n)%nat ->
  (forall i, (i < k)%nat -> still_running (get_replies w i url) = true) ->
  get_replies w k url = Thrown e ->
  let o := poll_loop c f url n w in
  result o = Thrown e
  /\ fetches (emitted o) = S k /\ sleeps (emitted o) = k /\ submits (emitted o) = O
  /\ writes (emitted o) = O /\ files (final o) = files w.
Proof.
  intros Hk Hrun Hget o.
  destruct (poll_loop_rounds c f url k (n - k) w Hrun)
    as (evs & Hloop & Hf & Hs & Hp & Hw & _ & _).
  replace (k + (n - k))%nat with n in Hloop by lia.
  destruct (n - k)%nat as [|r] eqn:Hr; [lia|].
  subst o. rewrite Hloop, (poll_loop_fetch_thrown c f url r _ e).
  2:{ rewrite get_replies_advance, Nat.add_0_r. exact Hget. }
  unfold fetches, sleeps, submits, writes in *.
  cbn [emitted result final after files advance].
  rewrite !count_app, Hf, Hs, Hp, Hw; cbn [count is_get is_sleep is_post is_write].
  rewrite files_advance. repeat split; lia.
Qed.

End PollingFacts.

(** ** Facts about a whole run *)

Section RunFacts.
Context `{JsRuntime}.

(** Once the job is accepted, the [try] block is the submission followed
    by the loop and the timeout that closes it. *)
Lemma submit_and_poll_accepted (c : REoptApiClient) (p : json) (f : string) (w : world)
    (h : string) :
  assigned_handle c p w = Returned h ->
  submit_and_poll c p f w
  = after (submission_events c p h)
      (bind (poll_loop c f (resultsUrl c h) maxAttempts)
         (fun returned =>
            match returned with
            | Some result => ret result
            | None => throw (Error "API polling timed out")
            end) w).
Proof.
  unfold assigned_handle. intros Hh.
  destruct (post_reply w (jobUrl c) p) as [data|] eqn:Hpost; [|discriminate].
  destruct (get_prop (Some data) "run_uuid") as [runUuid|] eqn:Hprop; [|discriminate].
  unfold submit_and_poll, log_line, console_log.
  rewrite bind_emit, (bind_axios_post _ _ _ _ _ Hpost), bind_emit.
  unfold prop, str. rewrite Hprop, bind_lift_returned, Hh, bind_lift_returned.
  rewrite !bind_emit, !after_after. reflexivity.
Qed.

(** A rejected submission ends the [try] block on the spot. *)
Lemma submit_and_poll_rejected (c : REoptApiClient) (p : json) (f : string) (w : world)
    (e : js_error) :
  post_reply w (jobUrl c) p = Thrown e ->
  submit_and_poll c p f w
  = {| result := Thrown e; final := w;
       emitted := [ConsoleLog [Some (JStr "Submitting job to REopt API...")];
                   HttpPost (jobUrl c) p] |}.
Proof.
  intros Hpost. unfold submit_and_poll, log_line, console_log.
  rewrite bind_emit, (bind_axios_post_thrown _ _ _ _ _ Hpost). reflexivity.
Qed.

(** The [catch] block adds one [console.error] and changes nothing else. *)
Lemma getApiResults_catch (c : REoptApiClient) (p : json) (f runId : option string)
    (w : world) :
  let body := submit_and_poll c p (default "results_file" f) w in
  let o := getApiResults c p f runId w in
  result o = result body /\ final o = final body
  /\ match result body with
     | Returned _ => emitted o = emitted body
     | Thrown e =>
         emitted o
         = (emitted body
            ++ [ConsoleError
                  [Some (JStr "API error:");
                   if truthy (error_response_data e) then error_response_data e
                   else Some (JStr (error_message e))]])%list
     end.
Proof.
  intros body o. subst o. unfold getApiResults, try_catch. fold body.
  destruct (result body) as [a|e] eqn:Hbody.
  - rewrite Hbody. auto.
  - simpl. auto.
Qed.

(** The events counted in a run are those of its [try] block. *)
Lemma getApiResults_counts (c : REoptApiClient) (p : json) (f runId : option string)
    (w : world) :
  let body := submit_and_poll c p (default "results_file" f) w in
  let o := getApiResults c p f runId w in
  submits (emitted o) = submits (emitted body)
  /\ fetches (emitted o) = fetches (emitted body)
  /\ sleeps (emitted o) = sleeps (emitted body)
  /\ writes (emitted o) = writes (emitted body)
  /\ fetched_urls (emitted o) = fetched_urls (emitted body).
Proof.
  intros body o.
  destruct (getApiResults_catch c p f runId w) as (_ & _ & Hev).
  fold body o in Hev.
  unfold submits, fetches, sleeps, writes.
  destruct (result body); rewrite Hev; [tauto|].
  rewrite !count_app, fetched_urls_app; simpl.
  rewrite !Nat.add_0_r, app_nil_r. tauto.
Qed.

(** The same, one level down: an accepted run counts as its loop does,
    plus the one submission. *)
Lemma getApiResults_accepted (c : REoptApiClient) (p : json) (f runId : option string)
    (w : world) (h : string) :
  assigned_handle c p w = Returned h ->
  let loop := poll_loop c (default "results_file" f) (resultsUrl c h) maxAttempts w in
  let o := getApiResults c p f runId w in
  submits (emitted o) = S (submits (emitted loop))
  /\ fetches (emitted o) = fetches (emitted loop)
  /\ sleeps (emitted o) = sleeps (emitted loop)
  /\ writes (emitted o) = writes (emitted loop)
  /\ fetched_urls (emitted o) = fetched_urls (emitted loop)
  /\ final o = final loop
  /\ result o = match result loop with
                | Returned (Some doc) => Returned doc
                | Returned None => Thrown (Error "API polling timed out")
                | Thrown e => Thrown e
                end
  /\ exists tail, emitted o = (submission_events c p h ++ emitted loop ++ tail)%list
                  /\ match result o with
                     | Returned _ => tail = []
                     | Thrown _ => exists args, tail = [ConsoleError args]
                     end.
Proof.
  intros Hh loop o.
  destruct (getApiResults_counts c p f runId w) as (Hp & Hf & Hs & Hw & Hu).
  destruct (getApiResults_catch c p f runId w) as (Hres & Hfin & Hev).
  fold o in Hp, Hf, Hs, Hw, Hu, Hres, Hfin, Hev.
  rewrite (submit_and_poll_accepted c p _ w h Hh) in *.
  fold loop in Hp, Hf, Hs, Hw, Hu, Hres, Hfin, Hev.
  unfold bind in Hp, Hf, Hs, Hw, Hu, Hres, Hfin, Hev. fold loop in Hp, Hf, Hs, Hw, Hu, Hres, Hfin, Hev.
  unfold submits, fetches, sleeps, writes in *.
  destruct (result loop) as [[doc|]|e] eqn:Hloop;
    cbn [after emitted result final ret throw] in *;
    rewrite ?count_app, ?fetched_urls_app, ?app_nil_r in *;
    cbn [count submission_events is_post is_get is_sleep is_write fetched_urls app] in *;
    rewrite ?Nat.add_0_r in *;
    (split; [lia|]); (split; [lia|]); (split; [lia|]); (split; [lia|]);
    (split; [assumption|]); (split; [assumption|]); (split; [assumption|]).
  - exists []. rewrite Hres, Hev, app_nil_r. auto.
  - eexists. rewrite Hres. split; [|eexists; reflexivity].
    rewrite Hev. cbn [app]. reflexivity.
  - eexists. rewrite Hres. split; [|eexists; reflexivity].
    rewrite Hev. cbn [app]. reflexivity.
Qed.

End RunFacts.

(** ** The claims *)

Section Claims.
Context `{JsRuntime}.

(** The optional [runId] parameter is never read. *)
Lemma getApiResults_ignores_runId (c : REoptApiClient) (p : json)
    (f runId : option string) :
  getApiResults c p f runId = getApiResults c p f None.
Proof. reflexivity. Qed.

(** The sibling method does re-attach to a job without submitting: one
    fetch at the handle it is given, and nothing else. *)
Lemma getResultsManually_fetches_once (c : REoptApiClient) (h : string) (w : world) :
  emitted (getResultsManually c h w) = [HttpGet (resultsUrl c h)]
  /\ result (getResultsManually c h w) = get_replies w 0%nat (resultsUrl c h).
Proof. split; reflexivity. Qed.

Lemma has_status_finished (reply : completion json) :
  has_status reply "optimal" = true ->
  exists doc, reply = Returned doc /\ finished (Returned doc) = true.
Proof.
  intros Hopt. destruct reply as [doc|]; [|discriminate].
  exists doc. split; [reflexivity|]. unfold finished. now rewrite Hopt.
Qed.

(** C2, as the code has it: when the job is accepted and none of the 120
    status fetches is terminal, [getApiResults] throws the plain
    [Error('API polling timed out')] after exactly 120 fetches. The bound
    is the constant 120, and the error is the same value whatever the
    handle: the handle only appears in the console line [Run UUID: ...]
    printed before polling starts. *)
Theorem polling_times_out (c : REoptApiClient) (p : json) (f runId : option string)
    (w : world) (h : string) :
  assigned_handle c p w = Returned h ->
  (forall i, (i < maxAttempts)%nat ->
     still_running (get_replies w i (resultsUrl c h)) = true) ->
  result (getApiResults c p f runId w) = Thrown (Error "API polling timed out")
  /\ fetches (emitted (getApiResults c p f runId w)) = 120%nat
  /\ fetched_urls (emitted (getApiResults c p f runId w)) = repeat (resultsUrl c h) 120
  /\ In (ConsoleLog [Some (JStr ("Run UUID: " +:+ h))])
        (emitted (getApiResults c p f runId w)).
Proof.
  intros Hh Hrun.
  destruct (getApiResults_accepted c p f runId w h Hh)
    as (_ & Hf & _ & _ & Hu & _ & Hres & tail & Hev & _).
  destruct (poll_loop_rounds c (default "results_file" f) (resultsUrl c h)
              maxAttempts 0 w Hrun)
    as (evs & Hloop & Hfe & _ & _ & _ & Hue & _).
  rewrite Nat.add_0_r in Hloop.
  rewrite Hloop in Hf, Hu, Hres. cbn [poll_loop after ret result emitted] in Hf, Hu, Hres.
  rewrite app_nil_r in Hf, Hu.
  rewrite Hres, Hf, Hu, Hfe, Hue, Hev.
  repeat split. simpl. tauto.
Qed.

(** C3, as the code has it: for every [k] below the bound of 120
    attempts, when the job is accepted, the first [k] status fetches are
    not terminal and fetch number [k+1] reports [optimal], the run makes
    exactly [k+1] fetches, [k] sleeps and one submit call. *)
Theorem fetches_and_sleeps_until_success (c : REoptApiClient) (p : json)
    (f runId : option string) (w : world) (h : string) (k : nat) :
  (k < maxAttempts)%nat ->
  assigned_handle c p w = Returned h ->
  (forall i, (i < k)%nat -> still_running (get_replies w i (resultsUrl c h)) = true) ->
  has_status (get_replies w k (resultsUrl c h)) "optimal" = true ->
  fetches (emitted (getApiResults c p f runId w)) = S k
  /\ sleeps (emitted (getApiResults c p f runId w)) = k
  /\ submits (emitted (getApiResults c p f runId w)) = 1%nat.
Proof.
  intros Hk Hh Hrun Hopt.
  destruct (has_status_finished _ Hopt) as (doc & Hget & Hfin).
  destruct (getApiResults_accepted c p f runId w h Hh) as (Hp & Hf & Hs & _).
  destruct (poll_loop_finished c (default "results_file" f) (resultsUrl c h)
              maxAttempts k w doc Hk Hrun Hget Hfin)
    as (Hlf & Hls & Hlp & _).
  rewrite Hp, Hf, Hs, Hlf, Hls, Hlp. auto.
Qed.

Lemma is_terminal_string (s : string) :
  is_terminal (Some (JStr s)) = true <-> s = "optimal" \/ s = "error".
Proof.
  unfold is_terminal, strict_eq_str. rewrite orb_true_iff, !String.eqb_eq. tauto.
Qed.

(** C4: a fetched document whose [status] is a string decides the round.
    The status is terminal exactly when it is ['optimal'] or ['error'].
    Any other string is reported and waited on like a running job: the
    round is one fetch, one message and one sleep, no error is raised and
    the loop goes on with the attempts that are left. A terminal status
    ends the loop in that round: one fetch, no sleep, and the document is
    returned (or the error of the failed file write is thrown). *)
Theorem unknown_status_keeps_polling (c : REoptApiClient) (f url : string) (r : nat)
    (w : world) (doc : json) (s : string) :
  get_replies w 0%nat url = Returned doc ->
  get_prop (Some doc) "status" = Returned (Some (JStr s)) ->
  (is_terminal (Some (JStr s)) = true <-> s = "optimal" \/ s = "error")
  /\ if is_terminal (Some (JStr s))
     then fetches (emitted (poll_loop c f url (S r) w)) = 1%nat
          /\ sleeps (emitted (poll_loop c f url (S r) w)) = O
          /\ result (poll_loop c f url (S r) w)
             = match write_fault w (path_join (outputsPath c) (f +:+ ".json")) with
               | None => Returned (Some doc)
               | Some e => Thrown e
               end
     else poll_loop c f url (S r) w
          = after [HttpGet url;
                   ConsoleLog [Some (JStr ("Status: " +:+ s +:+ "... waiting..."))];
                   Sleep 5000]
              (poll_loop c f url r (advance w)).
Proof.
  intros Hget Hstatus. split; [apply is_terminal_string|].
  destruct (is_terminal (Some (JStr s))) eqn:Hterm.
  - destruct (poll_loop_terminal c f url r w doc _ Hget Hstatus Hterm)
      as (line & saved & Hend).
    rewrite Hend. unfold write_fault.
    destruct (write_faults w 0%nat (path_join (outputsPath c) (f +:+ ".json")));
      repeat split; reflexivity.
  - now apply (poll_loop_waits c f url r w doc (Some (JStr s)) s).
Qed.

(** C5, as the code has it: every run that reaches a terminal status
    writes the final document itself, once, to
    [outputs/<outputFileName>.json] (by default [results_file.json]),
    before it returns. There is no completion hook: the write is
    unconditional, and when it succeeds the file holds the serialised
    document and the document is returned. When the write fails its error
    is thrown and the file is left as the failure left it. *)
Theorem terminal_result_is_written (c : REoptApiClient) (p : json)
    (f runId : option string) (w : world) (h : string) (k : nat) (doc : json) :
  (k < maxAttempts)%nat ->
  assigned_handle c p w = Returned h ->
  (forall i, (i < k)%nat -> still_running (get_replies w i (resultsUrl c h)) = true) ->
  get_replies w k (resultsUrl c h) = Returned doc ->
  finished (Returned doc) = true ->
  writes (emitted (getApiResults c p f runId w)) = 1%nat
  /\ In (FsWrite (path_join (outputsPath c) (default "results_file" f +:+ ".json"))
           (JSON_stringify doc))
        (emitted (getApiResults c p f runId w))
  /\ match write_faults w 0%nat
             (path_join (outputsPath c) (default "results_file" f +:+ ".json")) with
     | None =>
         result (getApiResults c p f runId w) = Returned doc
         /\ files (final (getApiResults c p f runId w))
            = <[path_join (outputsPath c) (default "results_file" f +:+ ".json")
                := JSON_stringify doc]> (files w)
     | Some failure =>
         result (getApiResults c p f runId w) = Thrown (failure_error failure)
         /\ files (final (getApiResults c p f runId w))
            = damaged failure
                (path_join (outputsPath c) (default "results_file" f +:+ ".json"))
                (JSON_stringify doc) (files w)
     end.
Proof.
  intros Hk Hh Hrun Hget Hfin.
  destruct (getApiResults_accepted c p f runId w h Hh)
    as (_ & _ & _ & Hw & _ & Hfinal & Hres & tail & Hev & _).
  destruct (poll_loop_finished c (default "results_file" f) (resultsUrl c h)
              maxAttempts k w doc Hk Hrun Hget Hfin)
    as (_ & _ & _ & Hlw & Hin & _ & Hend).
  rewrite Hw, Hlw, Hev, Hfinal, Hres.
  split; [reflexivity|]. split.
  { apply in_or_app; right. apply in_or_app; left. exact Hin. }
  destruct (write_faults w 0%nat _); destruct Hend as [-> ->]; split; reflexivity.
Qed.

(** C8: an error raised by the adapter comes out of [getApiResults] as
    the very same value. A rejected submission is not repeated and no
    status is fetched; a rejected status fetch is not repeated either, so
    the fetches stop at the failing one and no sleep follows it. In both
    cases exactly one submit call was made and nothing is written. *)
Theorem adapter_error_propagates (c : REoptApiClient) (p : json)
    (f runId : option string) (w : world) (e : js_error) (n : nat) :
  adapter_failure c p w e n ->
  result (getApiResults c p f runId w) = Thrown e
  /\ submits (emitted (getApiResults c p f runId w)) = 1%nat
  /\ fetches (emitted (getApiResults c p f runId w)) = n
  /\ sleeps (emitted (getApiResults c p f runId w)) = pred n
  /\ writes (emitted (getApiResults c p f runId w)) = O
  /\ files (final (getApiResults c p f runId w)) = files w.
Proof.
  intros [e' Hpost | e' h k Hh Hk Hrun Hget].
  - destruct (getApiResults_counts c p f runId w) as (Hp & Hf & Hs & Hw & _).
    destruct (getApiResults_catch c p f runId w) as (Hres & Hfinal & _).
    rewrite (submit_and_poll_rejected c p _ w e' Hpost) in *.
    rewrite Hres, Hp, Hf, Hs, Hw, Hfinal. repeat split.
  - destruct (getApiResults_accepted c p f runId w h Hh)
      as (Hp & Hf & Hs & Hw & _ & Hfinal & Hres & _).
    destruct (poll_loop_fetch_fails c (default "results_file" f) (resultsUrl c h)
                maxAttempts k w e' Hk Hrun Hget)
      as (Hlres & Hlf & Hls & Hlp & Hlw & Hlfiles).
    rewrite Hres, Hp, Hf, Hs, Hw, Hfinal, Hlres, Hlf, Hls, Hlp, Hlw, Hlfiles.
    repeat split.
Qed.

(** C10: on the timeout path every one of the 120 fetches is followed
    by a sleep, the last one included: the run makes exactly 120 sleeps,
    and the sleep after the last fetch is the last thing it does before
    the timeout error is reported and thrown. *)
Theorem timeout_sleeps_after_every_fetch (c : REoptApiClient) (p : json)
    (f runId : option string) (w : world) (h : string) :
  assigned_handle c p w = Returned h ->
  (forall i, (i < maxAttempts)%nat ->
     still_running (get_replies w i (resultsUrl c h)) = true) ->
  result (getApiResults c p f runId w) = Thrown (Error "API polling timed out")
  /\ sleeps (emitted (getApiResults c p f runId w)) = 120%nat
  /\ fetches (emitted (getApiResults c p f runId w)) = 120%nat
  /\ exists before args,
       emitted (getApiResults c p f runId w)
       = (before ++ [Sleep 5000; ConsoleError args])%list.
Proof.
  intros Hh Hrun.
  destruct (getApiResults_accepted c p f runId w h Hh)
    as (_ & Hf & Hs & _ & _ & _ & Hres & tail & Hev & Htail).
  destruct (poll_loop_exhausted c (default "results_file" f) (resultsUrl c h)
              maxAttempts w Hrun)
    as (evs & Hloop & Hfe & Hse & _ & _ & Hlast).
  rewrite Hloop in Hf, Hs, Hres, Hev. cbn [result emitted] in Hf, Hs, Hres, Hev.
  rewrite Hres in Htail. destruct Htail as [args ->].
  cbn [maxAttempts] in Hlast. destruct Hlast as [before ->].
  rewrite Hres, Hf, Hs, Hfe, Hse, Hev.
  repeat split.
  exists (submission_events c p h ++ before)%list, args.
  now rewrite <- !app_assoc.
Qed.

(** C6, as the code has it: loading a name for which the category's
    directory holds no file (in particular a name never saved) throws
    for requests and responses, with the file system's own [ENOENT]
    error of [readFileSync] and not a dedicated not-found error, and
    returns [null] for rates, where the code tests [existsSync] first. *)
Theorem load_of_missing_file (c : REoptApiClient) (cat : category) (name : string)
    (w : world) :
  files w !! store_path c cat name = None ->
  result (store_load c cat name w)
  = match cat with
    | Rate => Returned JNull
    | Request | Response => Thrown (ENOENT "open" (store_path c cat name))
    end.
Proof.
  intros Habsent. destruct cat; unfold store_load, store_path in *.
  - unfold loadPostData, bind, fs_readFileSync; simpl. now rewrite Habsent.
  - unfold loadApiResponse, bind, fs_readFileSync; simpl. now rewrite Habsent.
  - unfold loadElectricRate, bind, fs_existsSync; simpl. rewrite Habsent.
    rewrite bool_decide_eq_false_2; [reflexivity|]. now intros [? ?].
Qed.

(** C7: for the categories the client saves (requests and responses)
    and every document the host's JSON serialisation round-trips, that
    is, every JSON-serializable document: when the write meets no
    failure, the save returns and has stored the serialised document in
    the file of that name, and a load of the same name after it returns
    the saved document. *)
Theorem save_then_load (c : REoptApiClient) (cat : category) (name : string)
    (doc : json) (save : M unit) (w : world) :
  store_save c cat name doc = Some save ->
  JSON_parse (JSON_stringify doc) = Returned doc ->
  write_fault w (store_path c cat name) = None ->
  result (save w) = Returned tt
  /\ files (final (save w)) !! store_path c cat name = Some (JSON_stringify doc)
  /\ result (store_load c cat name (final (save w))) = Returned doc.
Proof.
  intros Hsave Hjson Hfault.
  assert (Hsaved :
    forall line,
      bind (fs_writeFileSync (store_path c cat name) (JSON_stringify doc))
        (fun _ => log_line line) w
      = {| result := Returned tt;
           final := store (store_path c cat name) (JSON_stringify doc) w;
           emitted := [FsWrite (store_path c cat name) (JSON_stringify doc);
                       ConsoleLog [Some (JStr line)]] |}).
  { intros line. now rewrite (bind_write _ _ _ _ Hfault). }
  assert (Hfile :
    files (store (store_path c cat name) (JSON_stringify doc) w) !! store_path c cat name
    = Some (JSON_stringify doc)).
  { cbn [store files]. apply lookup_insert_eq. }
  destruct cat; simpl in Hsave; inversion Hsave; subst save; clear Hsave.
  - unfold savePostData. fold (store_path c Request name). rewrite Hsaved.
    cbn [result final]. split; [reflexivity|]. split; [exact Hfile|].
    unfold store_load, loadPostData. fold (store_path c Request name).
    rewrite (bind_read _ _ _ _ Hfile). exact Hjson.
  - unfold saveApiResponse. fold (store_path c Response name). rewrite Hsaved.
    cbn [result final]. split; [reflexivity|]. split; [exact Hfile|].
    unfold store_load, loadApiResponse. fold (store_path c Response name).
    rewrite (bind_read _ _ _ _ Hfile). exact Hjson.
Qed.

End Claims.

(** ** The claims on concrete runs *)

(** C1: the resume path is missing from [getApiResults]. Called with the
    handle [abc-123] of an earlier job, it still submits the request once,
    and it polls the handle the service has just assigned ([fresh-999])
    and never the one it was given. *)
Theorem resume_handle_is_ignored :
  submits (emitted (getApiResults sample_client sample_request None (Some "abc-123")
                      (scripted "fresh-999" 0))) = 1%nat
  /\ fetched_urls (emitted (getApiResults sample_client sample_request None (Some "abc-123")
                             (scripted "fresh-999" 0)))
     = [resultsUrl sample_client "fresh-999"]
  /\ fetched_urls (emitted (getApiResults sample_client sample_request None (Some "abc-123")
                             (scripted "fresh-999" 0)))
     <> [resultsUrl sample_client "abc-123"].
Proof. vm_compute. repeat split. discriminate. Qed.

(** C2 fails as stated: for a job accepted under the handle [abc-123]
    that never finishes, the error thrown after the 120 fetches is the
    plain [Error('API polling timed out')]; its text does not mention the
    handle, and a job with another handle fails with the same value. *)
Lemma timeout_error_omits_handle :
  let o := getApiResults sample_client sample_request None None (stuck "abc-123") in
  assigned_handle sample_client sample_request (stuck "abc-123") = Returned "abc-123"
  /\ fetches (emitted o) = 120%nat
  /\ result o = Thrown (Error "API polling timed out")
  /\ names_handle (Error "API polling timed out") "abc-123" = false
  /\ result (getApiResults sample_client sample_request None None (stuck "xyz-789"))
     = result o.
Proof. vm_compute. repeat split. Qed.

Lemma polling_times_out_witness :
  result (getApiResults sample_client sample_request None None (stuck "abc-123"))
  = Thrown (Error "API polling timed out")
  /\ fetches (emitted (getApiResults sample_client sample_request None None
                        (stuck "abc-123"))) = 120%nat
  /\ fetched_urls (emitted (getApiResults sample_client sample_request None None
                             (stuck "abc-123")))
     = repeat (resultsUrl sample_client "abc-123") 120
  /\ In (ConsoleLog [Some (JStr ("Run UUID: " +:+ "abc-123"))])
        (emitted (getApiResults sample_client sample_request None None (stuck "abc-123"))).
Proof.
  apply (@polling_times_out node_runtime sample_client sample_request None None
           (stuck "abc-123") "abc-123").
  - reflexivity.
  - intros i _. reflexivity.
Defined.

Lemma scripted_running (handle url : string) (k i : nat) :
  (i < k)%nat -> still_running (get_replies (scripted handle k) i url) = true.
Proof.
  intros Hi. cbn [scripted get_replies].
  apply Nat.ltb_lt in Hi. rewrite Hi. reflexivity.
Defined.

(** C3 fails as stated: with [k = 120], the first 120 fetches are still
    running and fetch number 121 would report [optimal], but the run stops
    after 120 fetches with the timeout error and never makes fetch 121. *)
Lemma late_success_is_never_fetched :
  let w := scripted "abc-123" 120 in
  let url := resultsUrl sample_client "abc-123" in
  let o := getApiResults sample_client sample_request None None w in
  (forall i, (i < 120)%nat -> still_running (get_replies w i url) = true)
  /\ has_status (get_replies w 120 url) "optimal" = true
  /\ fetches (emitted o) = 120%nat
  /\ fetches (emitted o) <> (120 + 1)%nat
  /\ result o = Thrown (Error "API polling timed out").
Proof.
  split; [intros i Hi; now apply scripted_running|].
  vm_compute. repeat split. discriminate.
Qed.

Lemma fetches_and_sleeps_until_success_witness :
  fetches (emitted (getApiResults sample_client sample_request None None
                      (scripted "abc-123" 2))) = 3%nat
  /\ sleeps (emitted (getApiResults sample_client sample_request None None
                       (scripted "abc-123" 2))) = 2%nat
  /\ submits (emitted (getApiResults sample_client sample_request None None
                        (scripted "abc-123" 2))) = 1%nat.
Proof.
  apply (@fetches_and_sleeps_until_success node_runtime sample_client sample_request
           None None (scripted "abc-123" 2) "abc-123" 2).
  - unfold maxAttempts. lia.
  - reflexivity.
  - intros i Hi. now apply scripted_running.
  - reflexivity.
Defined.

Lemma unknown_status_keeps_polling_witness :
  (is_terminal (Some (JStr "Running")) = true <-> "Running" = "optimal" \/ "Running" = "error")
  /\ if is_terminal (Some (JStr "Running"))
     then fetches (emitted (poll_loop sample_client "results_file"
                              (resultsUrl sample_client "abc-123") 120
                              (scripted "abc-123" 2))) = 1%nat
          /\ sleeps (emitted (poll_loop sample_client "results_file"
                                (resultsUrl sample_client "abc-123") 120
                                (scripted "abc-123" 2))) = O
          /\ result (poll_loop sample_client "results_file"
                       (resultsUrl sample_client "abc-123") 120 (scripted "abc-123" 2))
             = match write_fault (scripted "abc-123" 2)
                       (path_join (outputsPath sample_client) ("results_file" +:+ ".json")) with
               | None => Returned (Some running_doc)
               | Some e => Thrown e
               end
     else poll_loop sample_client "results_file" (resultsUrl sample_client "abc-123") 120
            (scripted "abc-123" 2)
          = after [HttpGet (resultsUrl sample_client "abc-123");
                   ConsoleLog [Some (JStr ("Status: " +:+ "Running" +:+ "... waiting..."))];
                   Sleep 5000]
              (poll_loop sample_client "results_file" (resultsUrl sample_client "abc-123") 119
                 (advance (scripted "abc-123" 2))).
Proof.
  apply (@unknown_status_keeps_polling node_runtime sample_client "results_file"
           (resultsUrl sample_client "abc-123") 119 (scripted "abc-123" 2)
           running_doc "Running").
  - reflexivity.
  - reflexivity.
Defined.

(** C5 fails as stated: the method has no completion hook to pass, and
    a plain call that reaches a terminal status writes the result to
    [outputs/results_file.json], a file that did not exist before. *)
Lemma result_is_written_without_hook :
  let w := scripted "abc-123" 0 in
  let o := getApiResults sample_client sample_request None None w in
  files w !! "outputs/results_file.json" = None
  /\ result o = Returned optimal_doc
  /\ writes (emitted o) = 1%nat
  /\ writes (emitted o) <> O
  /\ files (final o) !! "outputs/results_file.json" = Some (JSON_stringify optimal_doc).
Proof. vm_compute. repeat split. discriminate. Qed.

Lemma terminal_result_is_written_witness :
  writes (emitted (getApiResults sample_client sample_request None None
                     (scripted "abc-123" 2))) = 1%nat
  /\ In (FsWrite (path_join (outputsPath sample_client)
                    (default "results_file" None +:+ ".json"))
           (JSON_stringify optimal_doc))
        (emitted (getApiResults sample_client sample_request None None
                    (scripted "abc-123" 2)))
  /\ match write_faults (scripted "abc-123" 2) 0%nat
             (path_join (outputsPath sample_client)
                (default "results_file" None +:+ ".json")) with
     | None =>
         result (getApiResults sample_client sample_request None None
                   (scripted "abc-123" 2)) = Returned optimal_doc
         /\ files (final (getApiResults sample_client sample_request None None
                            (scripted "abc-123" 2)))
            = <[path_join (outputsPath sample_client)
                  (default "results_file" None +:+ ".json")
                := JSON_stringify optimal_doc]> (files (scripted "abc-123" 2))
     | Some failure =>
         result (getApiResults sample_client sample_request None None
                   (scripted "abc-123" 2)) = Thrown (failure_error failure)
         /\ files (final (getApiResults sample_client sample_request None None
                            (scripted "abc-123" 2)))
            = damaged failure
                (path_join (outputsPath sample_client)
                   (default "results_file" None +:+ ".json"))
                (JSON_stringify optimal_doc) (files (scripted "abc-123" 2))
     end.
Proof.
  apply (@terminal_result_is_written node_runtime sample_client sample_request None None
           (scripted "abc-123" 2) "abc-123" 2 optimal_doc).
  - unfold maxAttempts. lia.
  - reflexivity.
  - intros i Hi. now apply scripted_running.
  - reflexivity.
  - reflexivity.
Defined.

(** C6 fails as stated: in a store where nothing was ever saved, loading
    the rate [PGE_E20] does not fail; it returns [null]. *)
Lemma missing_rate_loads_null :
  files (stuck "abc-123") !! store_path sample_client Rate "PGE_E20" = None
  /\ result (store_load sample_client Rate "PGE_E20" (stuck "abc-123")) = Returned JNull
  /\ (forall e, result (store_load sample_client Rate "PGE_E20" (stuck "abc-123"))
                <> Thrown e).
Proof. vm_compute. repeat split. discriminate. Qed.

Lemma load_of_missing_file_witness :
  result (store_load sample_client Request "post_2" (stuck "abc-123"))
  = Thrown (ENOENT "open" (store_path sample_client Request "post_2")).
Proof.
  apply (@load_of_missing_file node_runtime sample_client Request "post_2" (stuck "abc-123")).
  reflexivity.
Defined.

Lemma save_then_load_witness :
  (result (savePostData sample_client sample_request "post_2" (stuck "abc-123"))
   = Returned tt
   /\ files (final (savePostData sample_client sample_request "post_2" (stuck "abc-123")))
      !! store_path sample_client Request "post_2"
      = Some (JSON_stringify sample_request)
   /\ result (store_load sample_client Request "post_2"
                (final (savePostData sample_client sample_request "post_2"
                          (stuck "abc-123"))))
      = Returned sample_request)
  /\ (result (saveApiResponse sample_client optimal_doc "response_2" (stuck "abc-123"))
      = Returned tt
      /\ files (final (saveApiResponse sample_client optimal_doc "response_2"
                         (stuck "abc-123")))
         !! store_path sample_client Response "response_2"
         = Some (JSON_stringify optimal_doc)
      /\ result (store_load sample_client Response "response_2"
                   (final (saveApiResponse sample_client optimal_doc "response_2"
                             (stuck "abc-123"))))
         = Returned optimal_doc).
Proof.
  split.
  - apply (@save_then_load node_runtime sample_client Request "post_2" sample_request
             (savePostData sample_client sample_request "post_2") (stuck "abc-123")).
    + reflexivity.
    + vm_compute. reflexivity.
    + reflexivity.
  - apply (@save_then_load node_runtime sample_client Response "response_2" optimal_doc
             (saveApiResponse sample_client optimal_doc "response_2") (stuck "abc-123")).
    + reflexivity.
    + vm_compute. reflexivity.
    + reflexivity.
Defined.

Lemma adapter_error_propagates_witness :
  result (getApiResults sample_client sample_request None None rejecting) = Thrown bad_request
  /\ submits (emitted (getApiResults sample_client sample_request None None rejecting)) = 1%nat
  /\ fetches (emitted (getApiResults sample_client sample_request None None rejecting)) = O
  /\ sleeps (emitted (getApiResults sample_client sample_request None None rejecting)) = pred O
  /\ writes (emitted (getApiResults sample_client sample_request None None rejecting)) = O
  /\ files (final (getApiResults sample_client sample_request None None rejecting))
     = files rejecting.
Proof.
  apply (@adapter_error_propagates node_runtime sample_client sample_request None None
           rejecting bad_request O).
  apply submit_failure. reflexivity.
Defined.

(** C9: [printResultsSummary] guards [outputs], [messages] and [info]
    but not the two lists under [messages]. On a response whose
    [messages.errors] is [null] it throws a [TypeError] out of
    [Object.keys], after printing the first lines of the summary. *)
Theorem summary_fails_on_null_errors :
  result (printResultsSummary null_errors_response (stuck "abc-123"))
  = Thrown (TypeError "Cannot convert undefined or null to object").
Proof. vm_compute. reflexivity. Qed.

(** The guards that are there do work: a response with no [messages], no
    [run_uuid] and no technology outputs is summarised without error. *)
Example summary_without_messages :
  result (printResultsSummary optimal_doc (stuck "abc-123")) = Returned tt.
Proof. vm_compute. reflexivity. Qed.

Lemma timeout_sleeps_after_every_fetch_witness :
  result (getApiResults sample_client sample_request None None (stuck "abc-123"))
  = Thrown (Error "API polling timed out")
  /\ sleeps (emitted (getApiResults sample_client sample_request None None
                       (stuck "abc-123"))) = 120%nat
  /\ fetches (emitted (getApiResults sample_client sample_request None None
                        (stuck "abc-123"))) = 120%nat
  /\ exists before args,
       emitted (getApiResults sample_client sample_request None None (stuck "abc-123"))
       = (before ++ [Sleep 5000; ConsoleError args])%list.
Proof.
  apply (@timeout_sleeps_after_every_fetch node_runtime sample_client sample_request
           None None (stuck "abc-123") "abc-123").
  - reflexivity.
  - intros i _. reflexivity.
Defined.

(** A status fetch that fails is not tried again: two rounds of waiting,
    then the third fetch drops and its error is what the caller gets. *)
Example fetch_error_is_not_retried :
  let o := getApiResults sample_client sample_request None None (flaky "abc-123" 2) in
  result o = Thrown socket_hang_up
  /\ submits (emitted o) = 1%nat /\ fetches (emitted o) = 3%nat
  /\ sleeps (emitted o) = 2%nat /\ writes (emitted o) = O.
Proof. vm_compute. repeat split. Qed.

(** The scenario of the specification: the job is accepted as
    [abc-123], reports [Running] twice and [optimal] at the third fetch.
    The run returns the finished document after 3 fetches and 2 sleeps,
    and its summary has the line for the net present value. *)
Example specification_scenario :
  let o := getApiResults sample_client sample_request None None (scripted "abc-123" 2) in
  result o = Returned optimal_doc
  /\ submits (emitted o) = 1%nat /\ fetches (emitted o) = 3%nat
  /\ sleeps (emitted o) = 2%nat
  /\ existsb (fun e => match e with
                       | ConsoleLog [Some (JStr line)] => String.eqb line "NPV ($): 50000"
                       | _ => false
                       end)
       (emitted (printResultsSummary optimal_doc (final o))) = true.
Proof. vm_compute. repeat split. Qed.

(** ** Every run of the loop *)

Section LoopRuns.
Context `{JsRuntime}.

Lemma finished_terminal (doc : json) (status : value) :
  get_prop (Some doc) "status" = Returned status ->
  finished (Returned doc) = is_terminal status.
Proof. intros Hst. unfold finished, has_status. now rewrite Hst. Qed.

(** The loop can only run as [poll_run] says. *)
Lemma poll_loop_run (c : REoptApiClient) (f url : string) (n : nat) (w : world) :
  poll_run c f url n w (poll_loop c f url n w).
Proof.
  revert w. induction n as [|n IH]; intros w.
  - apply run_exhausted.
  - destruct (get_replies w 0%nat url) as [doc|e] eqn:Hget.
    2:{ rewrite (poll_loop_fetch_thrown c f url n w e Hget).
        apply run_thrown; now rewrite Hget. }
    destruct (get_prop (Some doc) "status") as [status|e] eqn:Hst.
    2:{ replace (poll_loop c f url (S n) w)
          with {| result := @Thrown (option json) e; final := advance w;
                  emitted := [HttpGet url] |}.
        - apply run_thrown; rewrite Hget; unfold still_running, finished, has_status;
            now rewrite Hst.
        - cbn [poll_loop]. rewrite (bind_axios_get _ _ _ _ Hget).
          unfold prop. now rewrite Hst. }
    destruct (is_terminal status) eqn:Hterm.
    + destruct (poll_loop_terminal c f url n w doc status Hget Hst Hterm)
        as (line & saved & Hend).
      rewrite Hend.
      destruct (write_faults w 0%nat (path_join (outputsPath c) (f +:+ ".json")))
        as [failure|] eqn:Hfault.
      * apply (run_unwritten c f url n w doc line failure); auto.
        now rewrite (finished_terminal doc status Hst).
      * apply (run_returned c f url n w doc line saved); auto.
        -- now rewrite (finished_terminal doc status Hst).
        -- now apply write_fault_none.
    + destruct (to_string status) as [s|e] eqn:Hs.
      * rewrite (poll_loop_waits c f url n w doc status s Hget Hst Hterm Hs).
        apply run_waited; [|apply IH].
        rewrite Hget. unfold still_running. now rewrite Hst, Hterm, Hs.
      * replace (poll_loop c f url (S n) w)
          with {| result := @Thrown (option json) e; final := advance w;
                  emitted := [HttpGet url] |}.
        -- apply run_thrown; rewrite Hget.
           ++ unfold still_running. now rewrite Hst, Hterm, Hs.
           ++ now rewrite (finished_terminal doc status Hst).
        -- cbn [poll_loop]. rewrite (bind_axios_get _ _ _ _ Hget).
           unfold prop, str. now rewrite Hst, bind_lift_returned, Hterm, Hs.
Qed.

Lemma slept_ms_app (a b : list event) :
  slept_ms (a ++ b) = slept_ms a + slept_ms b.
Proof.
  induction a as [|e a IH]; simpl; [reflexivity|].
  destruct e; simpl; rewrite ?IH; lia.
Qed.

Lemma written_app (a b : list event) :
  written (a ++ b) = (written a ++ written b)%list.
Proof.
  induction a as [|e a IH]; simpl; [reflexivity|].
  destruct e; simpl; now rewrite IH.
Qed.

Lemma posted_app (a b : list event) :
  posted (a ++ b) = (posted a ++ posted b)%list.
Proof.
  induction a as [|e a IH]; simpl; [reflexivity|].
  destruct e; simpl; now rewrite IH.
Qed.

Lemma damaged_lookup_ne (failure : write_failure) (path data q : string)
    (fs : gmap string string) :
  q <> path -> damaged failure path data fs !! q = fs !! q.
Proof.
  intros Hq. destruct failure; cbn [damaged]; [reflexivity|].
  now apply lookup_insert_ne.
Qed.

(** What holds of every derivation, hence of every run of the loop. *)
Lemma poll_run_facts (c : REoptApiClient) (f url : string) (n : nat) (w : world)
    (o : outcome (option json)) :
  poll_run c f url n w o ->
  submits (emitted o) = O /\ reports (emitted o) = O
  /\ (fetches (emitted o) <= n)%nat
  /\ (sleeps (emitted o) <= fetches (emitted o))%nat
  /\ slept_ms (emitted o) = 5000 * Z.of_nat (sleeps (emitted o))
  /\ fetched_urls (emitted o) = repeat url (fetches (emitted o))
  /\ (forall p, p <> path_join (outputsPath c) (f +:+ ".json") ->
        files (final o) !! p = files w !! p)
  /\ (forall i q,
        write_faults (final o) i q
        = write_faults w (length (written (emitted o)) + i)%nat q)
  /\ match result o with
     | Returned (Some doc) =>
         finished (Returned doc) = true
         /\ written (emitted o)
            = [(path_join (outputsPath c) (f +:+ ".json"), JSON_stringify doc)]
         /\ files (final o)
            = <[path_join (outputsPath c) (f +:+ ".json") := JSON_stringify doc]> (files w)
     | Returned None =>
         fetches (emitted o) = n /\ sleeps (emitted o) = n
         /\ written (emitted o) = [] /\ files (final o) = files w
     | Thrown e =>
         (written (emitted o) = [] /\ files (final o) = files w)
         \/ exists doc failure,
              finished (Returned doc) = true
              /\ write_faults w 0%nat (path_join (outputsPath c) (f +:+ ".json"))
                 = Some failure
              /\ e = failure_error failure
              /\ written (emitted o)
                 = [(path_join (outputsPath c) (f +:+ ".json"), JSON_stringify doc)]
              /\ files (final o)
                 = damaged failure (path_join (outputsPath c) (f +:+ ".json"))
                     (JSON_stringify doc) (files w)
     end.
Proof.
  unfold submits, reports, fetches, sleeps.
  induction 1 as [w | r w e Hrun Hfin | r w doc line saved Hget Hfin Hfault
                  | r w doc line failure Hget Hfin Hfault | r w line o Hrun Hrest IH].
  - simpl. repeat split; auto.
  - simpl. repeat split; auto; lia.
  - simpl. repeat split; auto; try lia.
    intros p Hp. now apply lookup_insert_ne.
  - simpl. repeat split; auto; try lia.
    + intros p Hp. now apply damaged_lookup_ne.
    + right. exists doc, failure. auto.
  - destruct IH as (Hp & Hr & Hf & Hs & Hms & Hu & Hframe & Hfaults & Hres).
    cbn [after emitted result final app count is_post is_console_error is_get is_sleep
         slept_ms fetched_urls written].
    rewrite Hp, Hr, Hms, Hu.
    split; [reflexivity|]. split; [reflexivity|]. split; [lia|]. split; [lia|].
    split; [lia|]. split; [reflexivity|]. split; [exact Hframe|].
    split; [exact Hfaults|].
    destruct (result o) as [[doc|]|e]; cbn [files advance write_faults] in Hres.
    + exact Hres.
    + intuition lia.
    + exact Hres.
Qed.

End LoopRuns.

(** ** Every run of [getApiResults] *)

Section EveryRun.
Context `{JsRuntime}.

(** The loop followed by the timeout that closes it. *)
Lemma bind_poll_loop (c : REoptApiClient) (f url : string) (n : nat) (w : world) :
  bind (poll_loop c f url n)
    (fun returned =>
       match returned with
       | Some result => ret result
       | None => throw (Error "API polling timed out")
       end) w
  = {| result := match result (poll_loop c f url n w) with
                 | Returned (Some doc) => Returned doc
                 | Returned None => Thrown (Error "API polling timed out")
                 | Thrown e => Thrown e
                 end;
       final := final (poll_loop c f url n w);
       emitted := emitted (poll_loop c f url n w) |}.
Proof.
  unfold bind.
  destruct (result (poll_loop c f url n w)) as [[doc|]|e]; simpl;
    rewrite ?app_nil_r; reflexivity.
Qed.

(** A submission that does not yield a printable handle ends the [try]
    block before any status is fetched. *)
Lemma submit_and_poll_not_accepted (c : REoptApiClient) (p : json) (f : string)
    (w : world) (e : js_error) :
  assigned_handle c p w = Thrown e ->
  result (submit_and_poll c p f w) = Thrown e
  /\ final (submit_and_poll c p f w) = w
  /\ exists logs,
       emitted (submit_and_poll c p f w)
       = (ConsoleLog [Some (JStr "Submitting job to REopt API...")]
          :: HttpPost (jobUrl c) p :: logs)
       /\ (logs = []
           \/ logs = [ConsoleLog [Some (JStr ("Response OK from " +:+ jobUrl c))]]).
Proof.
  unfold assigned_handle. intros Hh.
  destruct (post_reply w (jobUrl c) p) as [data|e'] eqn:Hpost.
  - assert (Hbody :
      submit_and_poll c p f w
      = {| result := Thrown e; final := w;
           emitted := [ConsoleLog [Some (JStr "Submitting job to REopt API...")];
                       HttpPost (jobUrl c) p;
                       ConsoleLog [Some (JStr ("Response OK from " +:+ jobUrl c))]] |}).
    { unfold submit_and_poll, log_line, console_log.
      rewrite bind_emit, (bind_axios_post _ _ _ _ _ Hpost), bind_emit.
      unfold prop, str.
      destruct (get_prop (Some data) "run_uuid") as [runUuid|e''].
      - rewrite bind_lift_returned, Hh. reflexivity.
      - inversion Hh; subst. reflexivity. }
    rewrite Hbody. simpl. repeat split. eexists. split; [reflexivity|]. now right.
  - inversion Hh; subst.
    rewrite (submit_and_poll_rejected c p f w e Hpost). simpl.
    repeat split. exists []. split; [reflexivity|]. now left.
Qed.

Lemma posted_none (evs : list event) : count is_post evs = O -> posted evs = [].
Proof.
  induction evs as [|e evs IH]; simpl; [reflexivity|].
  destruct e; simpl; auto. discriminate.
Qed.

(** What holds of every run of the [try] block. *)
Lemma submit_and_poll_facts (c : REoptApiClient) (p : json) (f : string) (w : world) :
  let b := submit_and_poll c p f w in
  let path := path_join (outputsPath c) (f +:+ ".json") in
  posted (emitted b) = [(jobUrl c, p)]
  /\ reports (emitted b) = O
  /\ (fetches (emitted b) <= maxAttempts)%nat
  /\ (sleeps (emitted b) <= fetches (emitted b))%nat
  /\ slept_ms (emitted b) = 5000 * Z.of_nat (sleeps (emitted b))
  /\ (forall q, q <> path -> files (final b) !! q = files w !! q)
  /\ (forall i q,
        write_faults (final b) i q
        = write_faults w (length (written (emitted b)) + i)%nat q)
  /\ match result b with
     | Returned doc =>
         finished (Returned doc) = true
         /\ written (emitted b) = [(path, JSON_stringify doc)]
         /\ files (final b) = <[path := JSON_stringify doc]> (files w)
     | Thrown e =>
         (written (emitted b) = [] /\ files (final b) = files w)
         \/ exists doc failure,
              finished (Returned doc) = true
              /\ write_faults w 0%nat path = Some failure
              /\ e = failure_error failure
              /\ written (emitted b) = [(path, JSON_stringify doc)]
              /\ files (final b) = damaged failure path (JSON_stringify doc) (files w)
     end.
Proof.
  intros b path. subst b.
  destruct (assigned_handle c p w) as [h|e] eqn:Hh.
  - rewrite (submit_and_poll_accepted c p f w h Hh), bind_poll_loop.
    destruct (poll_run_facts c f (resultsUrl c h) maxAttempts w _
                (poll_loop_run c f (resultsUrl c h) maxAttempts w))
      as (Hp & Hr & Hf & Hs & Hms & _ & Hframe & Hfaults & Hres).
    unfold submits, reports, fetches, sleeps in *.
    cbn [after emitted result final].
    rewrite posted_app, !count_app, slept_ms_app, written_app.
    cbn [submission_events posted count is_console_error is_get is_sleep slept_ms written app].
    rewrite Hr, Hms.
    rewrite (posted_none _ Hp).
    split; [reflexivity|]. split; [reflexivity|]. split; [lia|]. split; [lia|].
    split; [lia|]. split; [exact Hframe|]. split; [exact Hfaults|].
    destruct (result (poll_loop c f (resultsUrl c h) maxAttempts w)) as [[doc|]|e].
    + exact Hres.
    + destruct Hres as (_ & _ & Hw & Hfiles). left. auto.
    + exact Hres.
  - destruct (submit_and_poll_not_accepted c p f w e Hh) as (Hres & Hfin & logs & Hev & Hlogs).
    rewrite Hres, Hfin, Hev.
    unfold reports, fetches, sleeps.
    destruct Hlogs as [-> | ->]; simpl; repeat split; auto; lia.
Qed.

End EveryRun.

Section RunProperties.
Context `{JsRuntime}.

(** Everything the [try] block guarantees, carried through the [catch]. *)
Lemma getApiResults_facts (c : REoptApiClient) (p : json) (f runId : option string)
    (w : world) :
  let o := getApiResults c p f runId w in
  posted (emitted o) = [(jobUrl c, p)]
  /\ (fetches (emitted o) <= maxAttempts)%nat
  /\ (sleeps (emitted o) <= fetches (emitted o))%nat
  /\ slept_ms (emitted o) = 5000 * Z.of_nat (sleeps (emitted o))
  /\ (forall q, q <> outputPath c f -> files (final o) !! q = files w !! q)
  /\ (forall i q,
        write_faults (final o) i q
        = write_faults w (length (written (emitted o)) + i)%nat q)
  /\ match result o with
     | Returned doc =>
         finished (Returned doc) = true
         /\ written (emitted o) = [(outputPath c f, JSON_stringify doc)]
         /\ files (final o) = <[outputPath c f := JSON_stringify doc]> (files w)
         /\ reports (emitted o) = O
     | Thrown e =>
         ((written (emitted o) = [] /\ files (final o) = files w)
          \/ exists doc failure,
               finished (Returned doc) = true
               /\ write_faults w 0%nat (outputPath c f) = Some failure
               /\ e = failure_error failure
               /\ written (emitted o) = [(outputPath c f, JSON_stringify doc)]
               /\ files (final o)
                  = damaged failure (outputPath c f) (JSON_stringify doc) (files w))
         /\ reports (emitted o) = 1%nat
         /\ exists before,
              emitted o
              = (before
                 ++ [ConsoleError
                       [Some (JStr "API error:");
                        if truthy (error_response_data e) then error_response_data e
                        else Some (JStr (error_message e))]])%list
     end.
Proof.
  intros o. subst o.
  destruct (getApiResults_catch c p f runId w) as (Hres & Hfin & Hev).
  destruct (submit_and_poll_facts c p (default "results_file" f) w)
    as (Hp & Hr & Hf & Hs & Hms & Hframe & Hfaults & Hbody).
  fold (outputPath c f) in Hframe, Hbody.
  rewrite Hres, Hfin.
  unfold reports, fetches, sleeps in *.
  remember (submit_and_poll c p (default "results_file" f) w) as b eqn:Hb.
  clear Hb. destruct (result b) as [doc|e].
  - rewrite Hev, Hr. intuition auto.
  - rewrite Hev, posted_app, !count_app, slept_ms_app, written_app, Hp, Hr.
    cbn [posted count is_console_error is_get is_sleep is_post slept_ms written app].
    rewrite !Nat.add_0_r, Z.add_0_r, !app_nil_r.
    split; [reflexivity|]. split; [exact Hf|]. split; [exact Hs|]. split; [exact Hms|].
    split; [exact Hframe|]. split; [exact Hfaults|]. split; [exact Hbody|].
    split; [reflexivity|]. eexists. reflexivity.
Qed.

(** X1: every call of [getApiResults] sends exactly one POST, to the job
    URL and with the document it was given, whatever the service answers
    and whatever [outputFileName] and [runId] are. *)
Theorem one_submission_per_run (c : REoptApiClient) (p : json) (f runId : option string)
    (w : world) :
  posted (emitted (getApiResults c p f runId w)) = [(jobUrl c, p)].
Proof. apply (getApiResults_facts c p f runId w). Qed.

(** X2: polling is bounded in every run: at most 120 status fetches, at
    most one sleep per fetch, every sleep of 5000 ms, hence at most ten
    minutes of waiting in all. *)
Theorem polling_is_bounded (c : REoptApiClient) (p : json) (f runId : option string)
    (w : world) :
  (fetches (emitted (getApiResults c p f runId w)) <= 120)%nat
  /\ (sleeps (emitted (getApiResults c p f runId w))
      <= fetches (emitted (getApiResults c p f runId w)))%nat
  /\ slept_ms (emitted (getApiResults c p f runId w))
     = 5000 * Z.of_nat (sleeps (emitted (getApiResults c p f runId w)))
  /\ slept_ms (emitted (getApiResults c p f runId w)) <= 10 * 60 * 1000.
Proof.
  destruct (getApiResults_facts c p f runId w) as (_ & Hf & Hs & Hms & _).
  unfold maxAttempts in Hf. repeat split; auto. lia.
Qed.

(** X3: a document that [getApiResults] returns always has a terminal
    status, ['optimal'] or ['error'], and has been written, by the one
    file write of the run, to the output path, where it now is; nothing
    was reported on [console.error]. *)
Theorem returned_document_is_terminal_and_saved (c : REoptApiClient) (p : json)
    (f runId : option string) (w : world) (doc : json) :
  result (getApiResults c p f runId w) = Returned doc ->
  finished (Returned doc) = true
  /\ written (emitted (getApiResults c p f runId w))
     = [(outputPath c f, JSON_stringify doc)]
  /\ files (final (getApiResults c p f runId w)) !! outputPath c f
     = Some (JSON_stringify doc)
  /\ reports (emitted (getApiResults c p f runId w)) = O.
Proof.
  intros Hres.
  destruct (getApiResults_facts c p f runId w) as (_ & _ & _ & _ & _ & _ & Hfacts).
  rewrite Hres in Hfacts. destruct Hfacts as (Hfin & Hw & Hfiles & Hr).
  rewrite Hfiles, lookup_insert_eq. auto.
Qed.

(** X4: a run that throws leaves every file as it was, except when it is
    the write of the result itself that failed. In that case the job had
    reached a terminal document, the error thrown is the error of the
    write, and the output file is left as the failed write left it:
    untouched when the open failed, holding the part of the document that
    got written (possibly nothing) when a later step failed. *)
Theorem failed_run_file_state (c : REoptApiClient) (p : json)
    (f runId : option string) (w : world) (e : js_error) :
  result (getApiResults c p f runId w) = Thrown e ->
  (written (emitted (getApiResults c p f runId w)) = []
   /\ files (final (getApiResults c p f runId w)) = files w)
  \/ exists doc failure,
       finished (Returned doc) = true
       /\ write_faults w 0%nat (outputPath c f) = Some failure
       /\ e = failure_error failure
       /\ written (emitted (getApiResults c p f runId w))
          = [(outputPath c f, JSON_stringify doc)]
       /\ files (final (getApiResults c p f runId w))
          = damaged failure (outputPath c f) (JSON_stringify doc) (files w).
Proof.
  intros Hres.
  destruct (getApiResults_facts c p f runId w) as (_ & _ & _ & _ & _ & _ & Hfacts).
  rewrite Hres in Hfacts. apply Hfacts.
Qed.

(** X5: a run that throws reports its error exactly once on
    [console.error], as the last thing it does: with the response data of
    the error when that is truthy, with its message otherwise. *)
Theorem failure_is_reported_once (c : REoptApiClient) (p : json)
    (f runId : option string) (w : world) (e : js_error) :
  result (getApiResults c p f runId w) = Thrown e ->
  reports (emitted (getApiResults c p f runId w)) = 1%nat
  /\ exists before,
       emitted (getApiResults c p f runId w)
       = (before
          ++ [ConsoleError
                [Some (JStr "API error:");
                 if truthy (error_response_data e) then error_response_data e
                 else Some (JStr (error_message e))]])%list.
Proof.
  intros Hres.
  destruct (getApiResults_facts c p f runId w) as (_ & _ & _ & _ & _ & _ & Hfacts).
  rewrite Hres in Hfacts. split; apply Hfacts.
Qed.

(** X6: no run changes, creates or removes any file other than the one
    at its output path. *)
Theorem run_touches_one_file (c : REoptApiClient) (p : json) (f runId : option string)
    (w : world) (q : string) :
  q <> outputPath c f ->
  files (final (getApiResults c p f runId w)) !! q = files w !! q.
Proof.
  destruct (getApiResults_facts c p f runId w) as (_ & _ & _ & _ & Hframe & _).
  apply Hframe.
Qed.

Lemma poll_run_fetches_first (c : REoptApiClient) (f url : string) (r : nat) (w : world)
    (o : outcome (option json)) :
  poll_run c f url (S r) w o -> (1 <= fetches (emitted o))%nat.
Proof. inversion 1; subst; unfold fetches; simpl; lia. Qed.

(** X7: once the job is accepted, every status fetch of the run goes to
    the results URL of the handle the service assigned, and at least one
    fetch is made. *)
Theorem all_fetches_target_the_handle (c : REoptApiClient) (p : json)
    (f runId : option string) (w : world) (h : string) :
  assigned_handle c p w = Returned h ->
  fetched_urls (emitted (getApiResults c p f runId w))
  = repeat (resultsUrl c h) (fetches (emitted (getApiResults c p f runId w)))
  /\ (1 <= fetches (emitted (getApiResults c p f runId w)))%nat.
Proof.
  intros Hh.
  destruct (getApiResults_accepted c p f runId w h Hh) as (_ & Hf & _ & _ & Hu & _).
  pose proof (poll_loop_run c (default "results_file" f) (resultsUrl c h) maxAttempts w)
    as Hrun.
  destruct (poll_run_facts _ _ _ _ _ _ Hrun) as (_ & _ & _ & _ & _ & Hurls & _).
  rewrite Hu, Hf, Hurls. split; [reflexivity|].
  now apply (poll_run_fetches_first _ _ _ _ _ _ Hrun).
Qed.


(** X9: when the service answers the submission with a [null] body, the
    run throws the [TypeError] of reading [run_uuid] and never fetches a
    status. *)
Theorem null_body_fails_before_polling (c : REoptApiClient) (p : json)
    (f runId : option string) (w : world) :
  post_reply w (jobUrl c) p = Returned JNull ->
  result (getApiResults c p f runId w)
  = Thrown (TypeError "Cannot read properties of null (reading 'run_uuid')")
  /\ fetches (emitted (getApiResults c p f runId w)) = O
  /\ sleeps (emitted (getApiResults c p f runId w)) = O
  /\ final (getApiResults c p f runId w) = w.
Proof.
  intros Hpost.
  assert (Hh : assigned_handle c p w
               = Thrown (TypeError "Cannot read properties of null (reading 'run_uuid')")).
  { unfold assigned_handle. now rewrite Hpost. }
  destruct (submit_and_poll_not_accepted c p (default "results_file" f) w _ Hh)
    as (Hres & Hfin & logs & Hev & Hlogs).
  destruct (getApiResults_counts c p f runId w) as (_ & Hf & Hs & _).
  destruct (getApiResults_catch c p f runId w) as (Hr & Hfinal & _).
  rewrite Hr, Hf, Hs, Hfinal, Hres, Hfin, Hev.
  unfold fetches, sleeps. destruct Hlogs as [-> | ->]; simpl; auto.
Qed.

(** X10: after a run has timed out, [getResultsManually] with the handle
    of the job picks up where the loop stopped: it makes no submission
    and one fetch, and returns the job's next status, number 121. *)
Theorem manual_resume_after_timeout (c : REoptApiClient) (p : json)
    (f runId : option string) (w : world) (h : string) :
  assigned_handle c p w = Returned h ->
  (forall i, (i < maxAttempts)%nat ->
     still_running (get_replies w i (resultsUrl c h)) = true) ->
  result (getResultsManually c h (final (getApiResults c p f runId w)))
  = get_replies w 120%nat (resultsUrl c h)
  /\ emitted (getResultsManually c h (final (getApiResults c p f runId w)))
     = [HttpGet (resultsUrl c h)].
Proof.
  intros Hh Hrun.
  destruct (getApiResults_accepted c p f runId w h Hh) as (_ & _ & _ & _ & _ & Hfin & _).
  destruct (poll_loop_exhausted c (default "results_file" f) (resultsUrl c h)
              maxAttempts w Hrun) as (evs & Hloop & _).
  rewrite Hloop in Hfin. cbn [final] in Hfin.
  unfold getResultsManually, axios_get. cbn [result emitted]. rewrite Hfin.
  rewrite get_replies_advance. split; reflexivity.
Qed.

(** X11: the document a run returns can be read back with
    [loadApiResponse] under the run's output file name, provided the
    host's JSON serialisation round-trips it. *)
Theorem saved_result_can_be_loaded (c : REoptApiClient) (p : json)
    (f runId : option string) (w : world) (doc : json) :
  result (getApiResults c p f runId w) = Returned doc ->
  JSON_parse (JSON_stringify doc) = Returned doc ->
  result (loadApiResponse c (default "results_file" f)
            (final (getApiResults c p f runId w)))
  = Returned doc.
Proof.
  intros Hres Hjson.
  destruct (getApiResults_facts c p f runId w) as (_ & _ & _ & _ & _ & _ & Hfacts).
  rewrite Hres in Hfacts. destruct Hfacts as (_ & _ & Hfiles & _).
  unfold loadApiResponse. rewrite (bind_read _ _ _ (JSON_stringify doc)).
  - exact Hjson.
  - rewrite Hfiles. apply lookup_insert_eq.
Qed.

End RunProperties.

(** ** The store helpers *)

Section StoreProperties.
Context `{JsRuntime}.

(** What a save does, in full. *)
Lemma store_save_outcome (c : REoptApiClient) (cat : category) (name : string)
    (doc : json) (save : M unit) (w : world) :
  store_save c cat name doc = Some save ->
  exists line,
    save w
    = match write_faults w 0%nat (store_path c cat name) with
      | None =>
          {| result := Returned tt;
             final := store (store_path c cat name) (JSON_stringify doc) w;
             emitted := [FsWrite (store_path c cat name) (JSON_stringify doc);
                         ConsoleLog [Some (JStr line)]] |}
      | Some failure =>
          {| result := Thrown (failure_error failure);
             final := failed_write failure (store_path c cat name) (JSON_stringify doc) w;
             emitted := [FsWrite (store_path c cat name) (JSON_stringify doc)] |}
      end.
Proof.
  intros Hsave.
  destruct cat; simpl in Hsave; inversion Hsave; subst save; clear Hsave;
    unfold savePostData, saveApiResponse, store_path;
    eexists;
    (destruct (write_faults w 0%nat _) as [failure|] eqn:Hfault;
     [ rewrite (bind_write_thrown _ _ _ _ _ Hfault)
     | apply write_fault_none in Hfault; rewrite (bind_write _ _ _ _ Hfault) ]);
    reflexivity.
Qed.

(** X12: saving twice under one name keeps no history. When neither of
    the two writes meets a failure, both saves return, the file of the
    name ends up holding the second document only, exactly as if the
    first save had never been made, and a load of the name returns the
    second document. *)
Theorem last_save_wins (c : REoptApiClient) (cat : category) (name : string)
    (d1 d2 : json) (save1 save2 : M unit) (w : world) :
  store_save c cat name d1 = Some save1 ->
  store_save c cat name d2 = Some save2 ->
  JSON_parse (JSON_stringify d2) = Returned d2 ->
  write_faults w 0%nat (store_path c cat name) = None ->
  write_faults w 1%nat (store_path c cat name) = None ->
  result (save1 w) = Returned tt
  /\ result (save2 (final (save1 w))) = Returned tt
  /\ files (final (save2 (final (save1 w))))
     = <[store_path c cat name := JSON_stringify d2]> (files w)
  /\ result (store_load c cat name (final (save2 (final (save1 w))))) = Returned d2.
Proof.
  intros Hs1 Hs2 Hjson Hfirst Hsecond.
  destruct (store_save_outcome c cat name d1 save1 w Hs1) as [l1 H1].
  rewrite Hfirst in H1. rewrite H1. cbn [result final].
  destruct (store_save_outcome c cat name d2 save2
              (store (store_path c cat name) (JSON_stringify d1) w) Hs2) as [l2 H2].
  cbn [store write_faults] in H2. rewrite Hsecond in H2. rewrite H2.
  cbn [result final store files].
  split; [reflexivity|]. split; [reflexivity|]. split; [apply insert_insert_eq|].
  destruct cat; simpl in Hs2; try discriminate;
    unfold store_load, store_path, loadPostData, loadApiResponse;
    rewrite (bind_read _ _ _ (JSON_stringify d2)); auto;
    cbn [files]; apply lookup_insert_eq.
Qed.

(** X13: a save changes no file but the one it is for. *)
Theorem save_touches_one_file (c : REoptApiClient) (cat : category) (name : string)
    (doc : json) (save : M unit) (w : world) (q : string) :
  store_save c cat name doc = Some save ->
  q <> store_path c cat name ->
  files (final (save w)) !! q = files w !! q.
Proof.
  intros Hsave Hq.
  destruct (store_save_outcome c cat name doc save w Hsave) as [line Hout].
  rewrite Hout.
  destruct (write_faults w 0%nat (store_path c cat name));
    cbn [final store failed_write files].
  - now apply damaged_lookup_ne.
  - now apply lookup_insert_ne.
Qed.

(** X14: a save whose write fails does not hide the failure and does
    nothing else: it throws the very error of the write, it does not
    print its [Saved ...] line, and the failed write is the only call it
    made. *)
Theorem failed_save_throws_and_stops (c : REoptApiClient) (cat : category)
    (name : string) (doc : json) (save : M unit) (w : world) (e : js_error) :
  store_save c cat name doc = Some save ->
  write_fault w (store_path c cat name) = Some e ->
  result (save w) = Thrown e
  /\ emitted (save w) = [FsWrite (store_path c cat name) (JSON_stringify doc)].
Proof.
  intros Hsave Hfault.
  destruct (store_save_outcome c cat name doc save w Hsave) as [line Hout].
  rewrite Hout. unfold write_fault in Hfault.
  destruct (write_faults w 0%nat (store_path c cat name)) as [failure|]; [|discriminate].
  inversion Hfault; subst. auto.
Qed.

(** X15: loading a name whose file exists returns exactly what the
    host's [JSON.parse] makes of the file's content, its [SyntaxError]
    included, in all three categories. *)
Theorem load_of_existing_file (c : REoptApiClient) (cat : category) (name : string)
    (w : world) (data : string) :
  files w !! store_path c cat name = Some data ->
  result (store_load c cat name w) = JSON_parse data.
Proof.
  intros Hfile. destruct cat; unfold store_load, store_path in *.
  - unfold loadPostData. now rewrite (bind_read _ _ _ _ Hfile).
  - unfold loadApiResponse. now rewrite (bind_read _ _ _ _ Hfile).
  - unfold loadElectricRate, bind at 1, fs_existsSync. cbn [result final emitted].
    rewrite Hfile. rewrite bool_decide_eq_true_2 by eauto.
    rewrite (bind_read _ _ _ _ Hfile). reflexivity.
Qed.

(** X16: the three loads only read: whatever they return or throw, the
    world is left as it was and nothing is sent, written or printed. *)
Theorem loads_are_read_only (c : REoptApiClient) (cat : category) (name : string)
    (w : world) :
  final (store_load c cat name w) = w /\ emitted (store_load c cat name w) = [].
Proof.
  destruct cat; unfold store_load, loadPostData, loadApiResponse, loadElectricRate,
    bind, fs_readFileSync, fs_existsSync, lift, ret; cbn [result final emitted].
  - destruct (files w !! _); cbn [result final emitted]; auto.
  - destruct (files w !! _); cbn [result final emitted]; auto.
  - destruct (bool_decide _); cbn [result final emitted]; [|auto].
    destruct (files w !! _); cbn [result final emitted]; auto.
Qed.

End StoreProperties.

(** ** The summary printer *)

Section SummaryProperties.
Context `{JsRuntime}.

Lemma quiet_ret {A} (a : A) : quiet (ret a).
Proof. intros w. split; reflexivity. Qed.

Lemma quiet_lift {A} (c : completion A) : quiet (lift c).
Proof. intros w. split; reflexivity. Qed.

Lemma quiet_console_log (args : list value) : quiet (console_log args).
Proof. intros w. split; reflexivity. Qed.

Lemma quiet_bind {A B} (m : M A) (k : A -> M B) :
  quiet m -> (forall a, quiet (k a)) -> quiet (bind m k).
Proof.
  intros Hm Hk w. unfold bind. destruct (Hm w) as [Hfin Hev].
  destruct (result (m w)) as [a|e]; cbn [final emitted].
  - destruct (Hk a (final (m w))) as [Hfin' Hev'].
    split; [congruence|]. rewrite forallb_app, Hev, Hev'. reflexivity.
  - auto.
Qed.

Lemma quiet_when (b : bool) (m : M unit) : quiet m -> quiet (when b m).
Proof. intros Hm. destruct b; [exact Hm|apply quiet_ret]. Qed.

Lemma quiet_for_each {A} (l : list A) (body : A -> M unit) :
  (forall x, quiet (body x)) -> quiet (for_each l body).
Proof.
  intros Hbody. induction l as [|x l IH]; cbn [for_each].
  - apply quiet_ret.
  - apply quiet_bind; auto.
Qed.

Ltac quiet_steps :=
  repeat first
    [ apply quiet_ret | apply quiet_lift | apply quiet_console_log
    | apply quiet_when | apply quiet_for_each; intros ?
    | apply quiet_bind; [|intros ?]
    | match goal with |- quiet (if ?b then _ else _) => destruct b end ].

Lemma quiet_print_tech (outputs : value) (tech : string) : quiet (print_tech outputs tech).
Proof. unfold print_tech, prop, prop_opt, str, log_line. quiet_steps. Qed.

Lemma quiet_printResultsSummary (apiResponse : json) :
  quiet (printResultsSummary apiResponse).
Proof.
  unfold printResultsSummary, prop, prop_opt, str, log_line. quiet_steps.
Qed.

(** X17: [printResultsSummary] only prints. On every response, also one
    it fails on, it leaves the world as it was and emits nothing but
    [console.log] calls: no request, no file write, no sleep and no
    [console.error]. *)
Theorem summary_only_prints (apiResponse : json) (w : world) :
  final (printResultsSummary apiResponse w) = w
  /\ forallb is_console_log (emitted (printResultsSummary apiResponse w)) = true
  /\ written (emitted (printResultsSummary apiResponse w)) = []
  /\ posted (emitted (printResultsSummary apiResponse w)) = []
  /\ fetches (emitted (printResultsSummary apiResponse w)) = O.
Proof.
  destruct (quiet_printResultsSummary apiResponse w) as [Hfin Hev].
  split; [exact Hfin|]. split; [exact Hev|].
  revert Hev. generalize (emitted (printResultsSummary apiResponse w)).
  unfold fetches. induction l as [|e l IH]; [auto|].
  destruct e; cbn [forallb is_console_log andb written posted count is_get];
    try discriminate.
  exact IH.
Qed.

(** Induction on documents, through the lists they nest in. *)
Lemma json_nested_ind (P : json -> Prop) :
  P JNull -> (forall b, P (JBool b)) -> (forall n, P (JNum n)) -> (forall s, P (JStr s)) ->
  (forall items, List.Forall P items -> P (JArr items)) ->
  (forall ps, List.Forall (fun kv => P (snd kv)) ps -> P (JObj ps)) ->
  forall j, P j.
Proof.
  intros HN HB HZ HS HA HO. fix IH 1. intros [| b | n | s | items | ps].
  - exact HN.
  - apply HB.
  - apply HZ.
  - apply HS.
  - apply HA. induction items as [|x rest IHrest]; constructor.
    + apply IH.
    + exact IHrest.
  - apply HO. induction ps as [|[k v] rest IHrest]; constructor.
    + apply IH.
    + exact IHrest.
Qed.

(** Every value of a plain document can be printed. *)
Lemma json_to_string_plain (j : json) :
  plain j = true -> exists s, json_to_string j = Returned s.
Proof.
  induction j as [| b | n | s | items IHitems | ps _] using json_nested_ind;
    intros Hp; cbn [json_to_string].
  - eexists; reflexivity.
  - destruct b; eexists; reflexivity.
  - eexists; reflexivity.
  - eexists; reflexivity.
  - cbn [plain] in Hp. induction IHitems as [|x rest Hx Hrest IHrest]; [eexists; reflexivity|].
    cbn [forallb] in Hp. apply andb_true_iff in Hp as [Hpx Hprest].
    destruct (IHrest Hprest) as [sr Hsr].
    assert (Hsx : exists sx, match x with
                             | JNull => Returned ""
                             | _ => json_to_string x
                             end = Returned sx).
    { destruct x; try (apply Hx; exact Hpx). eexists; reflexivity. }
    destruct Hsx as [sx Hsx]. rewrite Hsx.
    destruct rest as [|y rest']; [eexists; reflexivity|].
    rewrite Hsr. eexists; reflexivity.
  - cbn [plain] in Hp. apply andb_true_iff in Hp as [Hkey _].
    destruct (assoc "toString" ps); [discriminate|eexists; reflexivity].
Qed.

Lemma to_string_plain (v : value) :
  plain_value v = true -> exists s, to_string v = Returned s.
Proof.
  destruct v as [j|]; cbn [plain_value to_string]; [apply json_to_string_plain|eauto].
Qed.

Lemma assoc_plain (k : string) (ps : list (string * json)) (v : json) :
  forallb (fun kv => plain (snd kv)) ps = true ->
  assoc k ps = Some v -> plain v = true.
Proof.
  induction ps as [|[k' v'] ps IH]; cbn [assoc forallb snd]; [discriminate|].
  intros Hall Hfind. apply andb_true_iff in Hall as [Hv Hrest].
  destruct (String.eqb k k'); [inversion Hfind; subst; exact Hv|auto].
Qed.

(** Reading a field of a plain value gives a plain value, and does not
    throw unless the value is [null] or [undefined]. *)
Lemma field_plain (v : value) (name : string) :
  plain_value v = true -> plain_value (field v name) = true.
Proof.
  unfold field. destruct v as [[| | | | |ps]|]; cbn [get_prop plain_value]; auto.
  intros Hp. cbn [plain] in Hp. apply andb_true_iff in Hp as [_ Hall].
  destruct (assoc name ps) as [x|] eqn:Hfind; [|reflexivity].
  apply (assoc_plain name ps x Hall Hfind).
Qed.

Lemma get_prop_field (v : value) (name : string) :
  nullish v = false -> get_prop v name = Returned (field v name).
Proof.
  unfold field. destruct v as [[| | | | |ps]|]; cbn [get_prop nullish]; auto; discriminate.
Qed.

Lemma get_prop_opt_field (v : value) (name : string) :
  get_prop_opt v name = Returned (field v name).
Proof.
  unfold field. destruct v as [[| | | | |ps]|]; reflexivity.
Qed.

Lemma truthy_not_nullish (v : value) : truthy v = true -> nullish v = false.
Proof. destruct v as [[| | | | |]|]; cbn; auto; discriminate. Qed.

Lemma bind_assoc {A B C} (m : M A) (f : A -> M B) (k : B -> M C) (w : world) :
  bind (bind m f) k w = bind m (fun a => bind (f a) k) w.
Proof.
  unfold bind. destruct (result (m w)) as [a|e]; cbn [result final emitted]; [|reflexivity].
  destruct (result (f a (final (m w)))) as [b|e]; cbn [result final emitted]; [|reflexivity].
  now rewrite app_assoc.
Qed.

Lemma result_bind_emit {B} (e : event) (k : unit -> M B) (w : world) :
  result (bind (emit e) k w) = result (k tt w).
Proof. reflexivity. Qed.

Lemma result_bind_returned {A B} (m : M A) (k : A -> M B) (w : world) (a : A) :
  quiet m -> result (m w) = Returned a -> result (bind m k w) = result (k a w).
Proof.
  intros Hq Hres. unfold bind. rewrite Hres. cbn [result].
  now destruct (Hq w) as [-> _].
Qed.

Lemma result_bind_thrown {A B} (m : M A) (k : A -> M B) (w : world) (e : js_error) :
  result (m w) = Thrown e -> result (bind m k w) = Thrown e.
Proof. intros Hres. unfold bind. now rewrite Hres. Qed.

Lemma for_each_returns {A} (l : list A) (body : A -> M unit) (w : world) :
  (forall x, quiet (body x)) ->
  (forall x w', In x l -> result (body x w') = Returned tt) ->
  result (for_each l body w) = Returned tt.
Proof.
  intros Hq Hbody. induction l as [|x l IH]; cbn [for_each]; [reflexivity|].
  rewrite (result_bind_returned _ _ _ tt); auto.
  - apply IH. intros y w' Hy. apply Hbody. now right.
  - apply Hbody. now left.
Qed.

Lemma truthy_field_not_nullish (v : value) (name : string) :
  truthy (field v name) = true -> nullish v = false.
Proof. destruct v as [[| | | | |]|]; cbn; auto; discriminate. Qed.

Lemma object_keys_returns (v : value) :
  nullish v = false -> exists keys, object_keys v = Returned keys.
Proof.
  destruct v as [[| | | | |]|]; cbn [nullish object_keys]; try discriminate; eauto.
Qed.

Lemma result_after {A} (evs : list event) (o : outcome A) :
  result (after evs o) = result o.
Proof. reflexivity. Qed.

(** One statement of a printing method, run symbolically on a plain value. *)
Ltac print_step :=
  lazymatch goal with
  | |- result (bind (bind _ _) _ _) = _ => rewrite bind_assoc
  | |- result (bind (emit _) _ _) = _ => rewrite bind_emit, result_after
  | |- result (bind (ret _) _ _) = _ => rewrite bind_ret
  | |- result (bind (lift (Returned _)) _ _) = _ => rewrite bind_lift_returned
  | |- result (bind (lift (get_prop_opt ?v ?n)) _ _) = _ =>
      rewrite (get_prop_opt_field v n)
  | |- result (bind (lift (get_prop ?v ?n)) _ _) = _ =>
      rewrite (get_prop_field v n) by auto using truthy_not_nullish
  | |- result (bind (lift (to_string ?v)) _ _) = _ =>
      let s := fresh "s" in
      let Hs := fresh "Hs" in
      destruct (to_string_plain v) as [s Hs]; [auto using field_plain|rewrite Hs]
  | |- result (emit _ _) = _ => reflexivity
  | |- result (ret _ _) = _ => reflexivity
  end; cbv beta.

Lemma print_tech_returns (outputs : value) (tech : string) (w : world) :
  plain_value outputs = true ->
  result (print_tech outputs tech w) = Returned tt.
Proof.
  intros Hplain.
  unfold print_tech, prop_opt, prop, str, log_line, console_log.
  rewrite get_prop_opt_field, bind_lift_returned.
  destruct (truthy (field outputs tech)) eqn:Htruthy; [|reflexivity].
  unfold when at 1.
  rewrite (get_prop_field outputs tech (truthy_field_not_nullish _ _ Htruthy)).
  rewrite bind_lift_returned.
  pose proof (field_plain outputs tech Hplain) as Hpt.
  pose proof (truthy_not_nullish _ Htruthy) as Hnn.
  set (t := field outputs tech) in *.
  assert (Hchosen : exists chosen,
            (if String.eqb tech "GHP"
             then lift (get_prop t "ghpghx_chosen_outputs")
             else ret (Some (JBool false)))
            = lift (Returned chosen)
            /\ plain_value chosen = true).
  { destruct (String.eqb tech "GHP").
    - exists (field t "ghpghx_chosen_outputs").
      rewrite (get_prop_field t _ Hnn). split; [reflexivity|now apply field_plain].
    - exists (Some (JBool false)). split; reflexivity. }
  destruct Hchosen as (chosen & -> & Hpc).
  print_step.
  destruct (truthy chosen) eqn:Hc; unfold when at 1.
  - repeat print_step.
    destruct (object_keys_returns t Hnn) as [keys ->]. print_step.
    apply for_each_returns.
    + intros key. unfold when. destruct (includes key "size"); [|apply quiet_ret].
      repeat (apply quiet_bind; [|intros ?]); try apply quiet_lift. apply quiet_console_log.
    + intros key w' _. unfold when. destruct (includes key "size"); [|reflexivity].
      repeat print_step.
  - print_step.
    destruct (object_keys_returns t Hnn) as [keys ->]. print_step.
    apply for_each_returns.
    + intros key. unfold when. destruct (includes key "size"); [|apply quiet_ret].
      repeat (apply quiet_bind; [|intros ?]); try apply quiet_lift. apply quiet_console_log.
    + intros key w' _. unfold when. destruct (includes key "size"); [|reflexivity].
      repeat print_step.
Qed.

Lemma nullish_object_keys (v : value) :
  nullish v = true ->
  object_keys v = Thrown (TypeError "Cannot convert undefined or null to object").
Proof. destruct v as [[| | | | |]|]; cbn; auto; discriminate. Qed.

Ltac quiet_block := unfold when; quiet_steps.

(** The result of the summary on a plain response: it fails on a broken
    [messages] block, out of [Object.keys], and on nothing else. *)
Lemma printResultsSummary_result (ps : list (string * json)) (w : world) :
  plain (JObj ps) = true ->
  result (printResultsSummary (JObj ps) w)
  = if broken_messages (JObj ps)
    then Thrown (TypeError "Cannot convert undefined or null to object")
    else Returned tt.
Proof.
  intros Hplain.
  assert (Hr : plain_value (Some (JObj ps)) = true) by exact Hplain.
  assert (Hnr : nullish (Some (JObj ps)) = false) by reflexivity.
  unfold broken_messages.
  unfold printResultsSummary, prop_opt, prop, str, log_line, console_log.
  repeat print_step.
  set (outputs := field (Some (JObj ps)) "outputs") in *.
  assert (Hpo : plain_value outputs = true) by now apply field_plain.
  (* the financial block *)
  rewrite (result_bind_returned _ _ _ tt);
    [ | quiet_block
      | destruct (truthy (field outputs "Financial")) eqn:Hfin; unfold when;
        [repeat print_step | reflexivity] ].
  (* the technology loop *)
  rewrite (result_bind_returned _ _ _ tt);
    [ | apply quiet_for_each; intros tech; apply quiet_print_tech
      | apply for_each_returns;
        [ intros tech; apply quiet_print_tech
        | intros tech w' _; now apply print_tech_returns ] ].
  repeat print_step.
  set (messages := field (Some (JObj ps)) "messages") in *.
  assert (Hpm : plain_value messages = true) by now apply field_plain.
  (* the list of output categories, which closes the method *)
  match goal with
  | |- result (bind _ ?k w) = _ =>
      assert (Hclose : result (k tt w) = Returned tt)
  end.
  { cbv beta. destruct (truthy outputs) eqn:Hout; unfold when; [|reflexivity].
    repeat print_step.
    destruct (object_keys_returns outputs (truthy_not_nullish _ Hout)) as [keys ->].
    print_step. apply for_each_returns.
    - intros key. apply quiet_console_log.
    - reflexivity. }
  destruct (truthy messages) eqn:Hmsg; unfold when at 1; cbn [andb].
  2:{ repeat print_step. exact Hclose. }
  repeat print_step.
  rewrite (result_bind_returned _ _ _ tt);
    [ | quiet_block
      | destruct (truthy (field messages "info")) eqn:Hinfo; unfold when;
        [repeat print_step | reflexivity] ].
  repeat print_step.
  destruct (nullish (field messages "errors")) eqn:Herr; cbn [orb].
  { rewrite (nullish_object_keys _ Herr). reflexivity. }
  destruct (object_keys_returns _ Herr) as [error_keys ->]. repeat print_step.
  rewrite (result_bind_returned _ _ _ tt);
    [ | quiet_block | destruct (negb _); reflexivity ].
  repeat print_step.
  destruct (nullish (field messages "warnings")) eqn:Hwarn.
  { rewrite (nullish_object_keys _ Hwarn). reflexivity. }
  destruct (object_keys_returns _ Hwarn) as [warning_keys ->]. repeat print_step.
  rewrite (result_bind_returned _ _ _ tt);
    [ exact Hclose | quiet_block | destruct (negb _); reflexivity ].
Qed.

(** X18: on a response whose values can all be printed, the summary
    fails in exactly one situation: the response has a truthy [messages]
    block whose [errors] or [warnings] is [null] or missing. It then
    throws the [TypeError] of [Object.keys]; in every other case it
    returns. *)
Theorem summary_fails_exactly_on_broken_messages (ps : list (string * json)) (w : world) :
  plain (JObj ps) = true ->
  result (printResultsSummary (JObj ps) w)
  = if broken_messages (JObj ps)
    then Thrown (TypeError "Cannot convert undefined or null to object")
    else Returned tt.
Proof. apply printResultsSummary_result. Qed.

End SummaryProperties.

(** ** The example scenario *)

Section ScenarioProperties.
Context `{JsRuntime}.

(** A job that finishes is returned, if its document can be written. *)
Lemma getApiResults_returns (c : REoptApiClient) (p : json) (f runId : option string)
    (w : world) (doc : json) :
  finishes_with c p w doc ->
  write_fault w (outputPath c f) = None ->
  result (getApiResults c p f runId w) = Returned doc.
Proof.
  intros (h & k & Hh & Hk & Hrun & Hget & Hfin) Hfault.
  destruct (getApiResults_accepted c p f runId w h Hh) as (_ & _ & _ & _ & _ & _ & Hres & _).
  destruct (poll_loop_finished c (default "results_file" f) (resultsUrl c h)
              maxAttempts k w doc Hk Hrun Hget Hfin) as (_ & _ & _ & _ & _ & _ & Hend).
  apply write_fault_none in Hfault.
  unfold outputPath in Hfault. rewrite Hfault in Hend. destruct Hend as [Hend _].
  now rewrite Hres, Hend.
Qed.

Lemma finished_is_object (doc : json) :
  finished (Returned doc) = true -> exists ps, doc = JObj ps.
Proof. destruct doc; cbn; try discriminate. eauto. Qed.

Lemma bind_returned {A B} (m : M A) (k : A -> M B) (w : world) (a : A) :
  result (m w) = Returned a ->
  bind m k w = after (emitted (m w)) (k a (final (m w))).
Proof. intros Hres. unfold bind. now rewrite Hres. Qed.

Lemma bind_thrown {A B} (m : M A) (k : A -> M B) (w : world) (e : js_error) :
  result (m w) = Thrown e ->
  bind m k w = {| result := Thrown e; final := final (m w); emitted := emitted (m w) |}.
Proof. intros Hres. unfold bind. now rewrite Hres. Qed.

Lemma quiet_events {A} (m : M A) (w : world) :
  quiet m ->
  final (m w) = w /\ written (emitted (m w)) = [] /\ posted (emitted (m w)) = [].
Proof.
  intros Hq. destruct (Hq w) as [Hfin Hev]. split; [exact Hfin|].
  revert Hev. generalize (emitted (m w)).
  induction l as [|e l IH]; [auto|].
  destruct e; cbn [forallb is_console_log andb written posted]; try discriminate.
  exact IH.
Qed.

(** The scenario up to the return of [getApiResults]: the request is
    saved, read back, and what was read back is submitted. *)
Lemma scenario_outcome (c : REoptApiClient) (post1 loaded : json) (w : world) :
  JSON_parse (JSON_stringify post1) = Returned loaded ->
  write_fault w (store_path c Request "post_2") = None ->
  let w1 := store (store_path c Request "post_2") (JSON_stringify post1) w in
  let run := getApiResults c loaded (Some "results_file") None w1 in
  exists l1 l2 l3 l4,
    runSingleScenario_try c post1 w
    = after ([ConsoleLog l1;
              FsWrite (store_path c Request "post_2") (JSON_stringify post1);
              ConsoleLog l2; ConsoleLog l3; ConsoleLog l4] ++ emitted run)
        match result run with
        | Returned apiResponse =>
            bind (printResultsSummary apiResponse)
              (fun _ => saveApiResponse c apiResponse "response_2") (final run)
        | Thrown e => {| result := Thrown e; final := final run; emitted := [] |}
        end.
Proof.
  intros Hjson Hfault w1 run.
  do 4 eexists.
  unfold runSingleScenario_try, log_line at 1, console_log. rewrite bind_emit.
  unfold savePostData. fold (store_path c Request "post_2").
  rewrite bind_assoc, (bind_write _ _ _ _ Hfault).
  fold w1. unfold log_line at 1, console_log. rewrite bind_emit.
  unfold loadPostData. fold (store_path c Request "post_2").
  rewrite bind_assoc, (bind_read _ _ _ (JSON_stringify post1)).
  2:{ subst w1. cbn [store files]. apply lookup_insert_eq. }
  rewrite Hjson, bind_lift_returned.
  unfold log_line at 1 2, console_log. rewrite !bind_emit, !after_after.
  fold run. unfold bind at 1. fold run.
  destruct (result run) as [apiResponse|e].
  - unfold after. cbn [result final emitted app].
    rewrite <- ?app_assoc. reflexivity.
  - unfold after. cbn [result final emitted app].
    rewrite ?app_nil_r. reflexivity.
Qed.


(** The scenario once the job has finished with [doc]. *)
Lemma scenario_after_run (c : REoptApiClient) (post1 loaded doc : json) (w : world) :
  JSON_parse (JSON_stringify post1) = Returned loaded ->
  write_faults w 0%nat (store_path c Request "post_2") = None ->
  write_faults w 1%nat (store_path c Response "results_file") = None ->
  (broken_messages doc = false ->
   write_faults w 2%nat (store_path c Response "response_2") = None) ->
  finishes_with c loaded w doc ->
  plain doc = true ->
  result (runSingleScenario_try c post1 w)
  = (if broken_messages doc
     then Thrown (TypeError "Cannot convert undefined or null to object")
     else Returned tt)
  /\ posted (emitted (runSingleScenario_try c post1 w)) = [(jobUrl c, loaded)]
  /\ written (emitted (runSingleScenario_try c post1 w))
     = ([(store_path c Request "post_2", JSON_stringify post1);
         (store_path c Response "results_file", JSON_stringify doc)]
        ++ if broken_messages doc then []
           else [(store_path c Response "response_2", JSON_stringify doc)])%list.
Proof.
  intros Hjson Hfault1 Hfault2 Hfault3 Hfin Hplain.
  assert (Hfirst : write_fault w (store_path c Request "post_2") = None).
  { apply write_fault_none, Hfault1. }
  destruct (scenario_outcome c post1 loaded w Hjson Hfirst) as (l1 & l2 & l3 & l4 & Hout).
  rewrite Hout. clear Hout.
  set (w1 := store (store_path c Request "post_2") (JSON_stringify post1) w) in *.
  assert (Hrun : result (getApiResults c loaded (Some "results_file") None w1) = Returned doc).
  { apply getApiResults_returns; [exact Hfin|]. apply write_fault_none. apply Hfault2. }
  destruct (getApiResults_facts c loaded (Some "results_file") None w1)
    as (Hposted & _ & _ & _ & _ & Hfaults & Hfacts).
  rewrite Hrun in Hfacts. destruct Hfacts as (Hterm & Hwritten & _ & _).
  set (run := getApiResults c loaded (Some "results_file") None w1) in *.
  rewrite Hrun.
  destruct (finished_is_object doc Hterm) as [ps ->].
  pose proof (printResultsSummary_result ps (final run) Hplain) as Hsum.
  destruct (quiet_events (printResultsSummary (JObj ps)) (final run)
              (quiet_printResultsSummary (JObj ps))) as (Hsfin & Hswritten & Hsposted).
  destruct (broken_messages (JObj ps)) eqn:Hbroken.
  - rewrite (bind_thrown _ _ _ _ Hsum).
    cbn [after result emitted].
    rewrite !posted_app, !written_app, Hposted, Hwritten, Hsposted, Hswritten.
    repeat split.
  - rewrite (bind_returned _ _ _ _ Hsum), Hsfin.
    destruct (store_save_outcome c Response "response_2" (JObj ps)
                (saveApiResponse c (JObj ps) "response_2") (final run) eq_refl)
      as [line Hsave].
    rewrite Hsave, Hfaults, Hwritten. subst w1. cbn [store write_faults length Nat.add].
    rewrite (Hfault3 eq_refl).
    cbn [after result emitted].
    rewrite !posted_app, !written_app, Hposted, Hwritten, Hsposted, Hswritten.
    repeat split.
Qed.

(** X19: the scenario end to end. When the request can be read back
    from its file as [loaded], each of the three writes the scenario
    makes succeeds, and the job for [loaded] finishes with a plain
    document [doc] whose [messages] block is not broken, the scenario
    returns, having submitted [loaded] once and written three files in
    this order: the request to [inputs/post_2.json], and the same result
    document to [outputs/results_file.json] and to
    [outputs/response_2.json]. *)
Theorem scenario_saves_request_and_result (c : REoptApiClient) (post1 loaded doc : json)
    (w : world) :
  JSON_parse (JSON_stringify post1) = Returned loaded ->
  write_faults w 0%nat (store_path c Request "post_2") = None ->
  write_faults w 1%nat (store_path c Response "results_file") = None ->
  write_faults w 2%nat (store_path c Response "response_2") = None ->
  finishes_with c loaded w doc ->
  plain doc = true ->
  broken_messages doc = false ->
  result (runSingleScenario_try c post1 w) = Returned tt
  /\ posted (emitted (runSingleScenario_try c post1 w)) = [(jobUrl c, loaded)]
  /\ written (emitted (runSingleScenario_try c post1 w))
     = [(store_path c Request "post_2", JSON_stringify post1);
        (store_path c Response "results_file", JSON_stringify doc);
        (store_path c Response "response_2", JSON_stringify doc)].
Proof.
  intros Hjson Hfault1 Hfault2 Hfault3 Hfin Hplain Hok.
  destruct (scenario_after_run c post1 loaded doc w Hjson Hfault1 Hfault2
              (fun _ => Hfault3) Hfin Hplain)
    as (Hres & Hposted & Hwritten).
  rewrite Hok in Hres, Hwritten. auto.
Qed.

(** X20: when the two writes before the summary succeed and the job
    finishes with a document whose [messages] block is broken, the
    scenario throws the [TypeError] of the summary after the result has
    been written to [outputs/results_file.json], and
    [outputs/response_2.json] is never written. *)
Theorem scenario_loses_response_on_broken_messages (c : REoptApiClient)
    (post1 loaded doc : json) (w : world) :
  JSON_parse (JSON_stringify post1) = Returned loaded ->
  write_faults w 0%nat (store_path c Request "post_2") = None ->
  write_faults w 1%nat (store_path c Response "results_file") = None ->
  finishes_with c loaded w doc ->
  plain doc = true ->
  broken_messages doc = true ->
  result (runSingleScenario_try c post1 w)
  = Thrown (TypeError "Cannot convert undefined or null to object")
  /\ written (emitted (runSingleScenario_try c post1 w))
     = [(store_path c Request "post_2", JSON_stringify post1);
        (store_path c Response "results_file", JSON_stringify doc)].
Proof.
  intros Hjson Hfault1 Hfault2 Hfin Hplain Hbroken.
  assert (Hfault3 : broken_messages doc = false ->
                    write_faults w 2%nat (store_path c Response "response_2") = None)
    by congruence.
  destruct (scenario_after_run c post1 loaded doc w Hjson Hfault1 Hfault2 Hfault3
              Hfin Hplain)
    as (Hres & _ & Hwritten).
  rewrite Hbroken in Hres, Hwritten. auto.
Qed.

(** X21: when the service rejects the submission, the scenario throws
    the error of the service: the request file is the only file written,
    no status is fetched and no summary line is printed after the report
    of the error. *)
Theorem scenario_stops_on_rejection (c : REoptApiClient) (post1 loaded : json)
    (w : world) (e : js_error) :
  JSON_parse (JSON_stringify post1) = Returned loaded ->
  write_fault w (store_path c Request "post_2") = None ->
  post_reply w (jobUrl c) loaded = Thrown e ->
  result (runSingleScenario_try c post1 w) = Thrown e
  /\ written (emitted (runSingleScenario_try c post1 w))
     = [(store_path c Request "post_2", JSON_stringify post1)]
  /\ fetches (emitted (runSingleScenario_try c post1 w)) = O
  /\ files (final (runSingleScenario_try c post1 w))
     = <[store_path c Request "post_2" := JSON_stringify post1]> (files w)
  /\ exists before args,
       emitted (runSingleScenario_try c post1 w) = (before ++ [ConsoleError args])%list.
Proof.
  intros Hjson Hfault Hpost.
  destruct (scenario_outcome c post1 loaded w Hjson Hfault) as (l1 & l2 & l3 & l4 & Hout).
  rewrite Hout. clear Hout.
  set (w1 := store (store_path c Request "post_2") (JSON_stringify post1) w) in *.
  destruct (getApiResults_catch c loaded (Some "results_file") None w1) as (Hres & Hfin & Hev).
  assert (Hpost1 : post_reply w1 (jobUrl c) loaded = Thrown e) by exact Hpost.
  rewrite (submit_and_poll_rejected c loaded _ w1 e Hpost1) in Hres, Hfin, Hev.
  cbn [result final emitted] in Hres, Hfin, Hev.
  rewrite Hres, Hev, Hfin. unfold fetches.
  cbn [after result final emitted app written count is_get].
  repeat split. eexists (_ :: _ :: _ :: _ :: _ :: _ :: _ :: []), _. reflexivity.
Qed.

(** X22: when the write of the request file fails, the scenario throws
    the error of that write at once. The failed write is the only call it
    made after its first message: nothing is read back, submitted or
    fetched, and no file other than [inputs/post_2.json] is changed. *)
Theorem scenario_stops_when_request_is_not_saved (c : REoptApiClient) (post1 : json)
    (w : world) (e : js_error) :
  write_fault w (store_path c Request "post_2") = Some e ->
  result (runSingleScenario_try c post1 w) = Thrown e
  /\ posted (emitted (runSingleScenario_try c post1 w)) = []
  /\ fetches (emitted (runSingleScenario_try c post1 w)) = O
  /\ written (emitted (runSingleScenario_try c post1 w))
     = [(store_path c Request "post_2", JSON_stringify post1)]
  /\ printed (emitted (runSingleScenario_try c post1 w))
     = ["Created sample scenario input"]
  /\ forall q, q <> store_path c Request "post_2" ->
       files (final (runSingleScenario_try c post1 w)) !! q = files w !! q.
Proof.
  intros Hfault. unfold write_fault in Hfault.
  destruct (write_faults w 0%nat (store_path c Request "post_2")) as [failure|] eqn:Hf;
    [|discriminate].
  inversion Hfault; subst e. clear Hfault.
  assert (Hout :
            runSingleScenario_try c post1 w
            = {| result := Thrown (failure_error failure);
                 final := failed_write failure (store_path c Request "post_2")
                            (JSON_stringify post1) w;
                 emitted := [ConsoleLog [Some (JStr "Created sample scenario input")];
                             FsWrite (store_path c Request "post_2")
                               (JSON_stringify post1)] |}).
  { unfold runSingleScenario_try, log_line at 1, console_log. rewrite bind_emit.
    unfold savePostData. fold (store_path c Request "post_2").
    rewrite bind_assoc, (bind_write_thrown _ _ _ _ _ Hf). reflexivity. }
  rewrite Hout. cbn [result final emitted failed_write files].
  repeat split. intros q Hq. now apply damaged_lookup_ne.
Qed.

End ScenarioProperties.

(** ** The technology lines of the summary *)

Section TechProperties.
Context `{JsRuntime}.





End TechProperties.

(** ** The further properties on concrete runs *)

Lemma delivering_running (handle url : string) (k i : nat) (doc : json) :
  (i < k)%nat -> still_running (get_replies (delivering handle k doc) i url) = true.
Proof.
  intros Hi. cbn [delivering get_replies].
  apply Nat.ltb_lt in Hi. rewrite Hi. reflexivity.
Defined.

Lemma returned_document_is_terminal_and_saved_witness :
  let o := getApiResults sample_client sample_request None None (scripted "abc-123" 2) in
  finished (Returned optimal_doc) = true
  /\ written (emitted o) = [(outputPath sample_client None, JSON_stringify optimal_doc)]
  /\ files (final o) !! outputPath sample_client None = Some (JSON_stringify optimal_doc)
  /\ reports (emitted o) = O.
Proof.
  cbv zeta.
  apply (@returned_document_is_terminal_and_saved node_runtime sample_client
           sample_request None None (scripted "abc-123" 2) optimal_doc).
  vm_compute. reflexivity.
Defined.

Lemma failed_run_file_state_witness :
  (let o := getApiResults sample_client sample_request None None (stuck "abc-123") in
   (written (emitted o) = [] /\ files (final o) = files (stuck "abc-123"))
   \/ exists doc failure,
        finished (Returned doc) = true
        /\ write_faults (stuck "abc-123") 0%nat (outputPath sample_client None)
           = Some failure
        /\ Error "API polling timed out" = failure_error failure
        /\ written (emitted o) = [(outputPath sample_client None, JSON_stringify doc)]
        /\ files (final o)
           = damaged failure (outputPath sample_client None) (JSON_stringify doc)
               (files (stuck "abc-123")))
  /\ (let o := getApiResults sample_client sample_request None None full_disk in
      (written (emitted o) = [] /\ files (final o) = files full_disk)
      \/ exists doc failure,
           finished (Returned doc) = true
           /\ write_faults full_disk 0%nat (outputPath sample_client None) = Some failure
           /\ disk_full = failure_error failure
           /\ written (emitted o) = [(outputPath sample_client None, JSON_stringify doc)]
           /\ files (final o)
              = damaged failure (outputPath sample_client None) (JSON_stringify doc)
                  (files full_disk)).
Proof.
  cbv zeta. split.
  - apply (@failed_run_file_state node_runtime sample_client sample_request
             None None (stuck "abc-123") (Error "API polling timed out")).
    vm_compute. reflexivity.
  - apply (@failed_run_file_state node_runtime sample_client sample_request
             None None full_disk disk_full).
    vm_compute. reflexivity.
Defined.

Lemma failure_is_reported_once_witness :
  let o := getApiResults sample_client sample_request None None rejecting in
  reports (emitted o) = 1%nat
  /\ exists before,
       emitted o
       = (before
          ++ [ConsoleError
                [Some (JStr "API error:");
                 if truthy (error_response_data bad_request)
                 then error_response_data bad_request
                 else Some (JStr (error_message bad_request))]])%list.
Proof.
  cbv zeta.
  apply (@failure_is_reported_once node_runtime sample_client sample_request None None
           rejecting bad_request).
  reflexivity.
Defined.

Lemma run_touches_one_file_witness :
  files (final (getApiResults sample_client sample_request None None
                  (scripted "abc-123" 2))) !! "inputs/post_2.json"
  = files (scripted "abc-123" 2) !! "inputs/post_2.json".
Proof.
  apply (@run_touches_one_file node_runtime sample_client sample_request None None
           (scripted "abc-123" 2) "inputs/post_2.json").
  intros Heq. vm_compute in Heq. discriminate Heq.
Defined.

Lemma all_fetches_target_the_handle_witness :
  let o := getApiResults sample_client sample_request None None (scripted "abc-123" 2) in
  fetched_urls (emitted o) = repeat (resultsUrl sample_client "abc-123") (fetches (emitted o))
  /\ (1 <= fetches (emitted o))%nat.
Proof.
  cbv zeta.
  apply (@all_fetches_target_the_handle node_runtime sample_client sample_request None None
           (scripted "abc-123" 2) "abc-123").
  reflexivity.
Defined.


Lemma null_body_fails_before_polling_witness :
  let o := getApiResults sample_client sample_request None None
             (answering (Returned JNull)) in
  result o = Thrown (TypeError "Cannot read properties of null (reading 'run_uuid')")
  /\ fetches (emitted o) = O /\ sleeps (emitted o) = O
  /\ final o = answering (Returned JNull).
Proof.
  cbv zeta.
  apply (@null_body_fails_before_polling node_runtime sample_client sample_request
           None None (answering (Returned JNull))).
  reflexivity.
Defined.

Lemma manual_resume_after_timeout_witness :
  let o := getApiResults sample_client sample_request None None (stuck "abc-123") in
  result (getResultsManually sample_client "abc-123" (final o))
  = get_replies (stuck "abc-123") 120%nat (resultsUrl sample_client "abc-123")
  /\ emitted (getResultsManually sample_client "abc-123" (final o))
     = [HttpGet (resultsUrl sample_client "abc-123")].
Proof.
  cbv zeta.
  apply (@manual_resume_after_timeout node_runtime sample_client sample_request None None
           (stuck "abc-123") "abc-123").
  - reflexivity.
  - intros i _. reflexivity.
Defined.

Lemma saved_result_can_be_loaded_witness :
  result (loadApiResponse sample_client (default "results_file" None)
            (final (getApiResults sample_client sample_request None None
                      (scripted "abc-123" 2))))
  = Returned optimal_doc.
Proof.
  apply (@saved_result_can_be_loaded node_runtime sample_client sample_request None None
           (scripted "abc-123" 2) optimal_doc).
  - vm_compute. reflexivity.
  - vm_compute. reflexivity.
Defined.

Lemma last_save_wins_witness :
  let save1 := savePostData sample_client sample_request "post_2" in
  let save2 := savePostData sample_client optimal_doc "post_2" in
  let w := stuck "abc-123" in
  result (save1 w) = Returned tt
  /\ result (save2 (final (save1 w))) = Returned tt
  /\ files (final (save2 (final (save1 w))))
     = <[store_path sample_client Request "post_2" := JSON_stringify optimal_doc]> (files w)
  /\ result (store_load sample_client Request "post_2" (final (save2 (final (save1 w)))))
     = Returned optimal_doc.
Proof.
  cbv zeta.
  apply (@last_save_wins node_runtime sample_client Request "post_2" sample_request
           optimal_doc (savePostData sample_client sample_request "post_2")
           (savePostData sample_client optimal_doc "post_2") (stuck "abc-123")).
  - reflexivity.
  - reflexivity.
  - vm_compute. reflexivity.
  - reflexivity.
  - reflexivity.
Defined.

Lemma save_touches_one_file_witness :
  files (final (savePostData sample_client sample_request "post_2"
                  (holding "{}"))) !! "outputs/results_file.json"
  = files (holding "{}") !! "outputs/results_file.json".
Proof.
  apply (@save_touches_one_file node_runtime sample_client Request "post_2" sample_request
           (savePostData sample_client sample_request "post_2") (holding "{}")
           "outputs/results_file.json").
  - reflexivity.
  - intros Heq. vm_compute in Heq. discriminate Heq.
Defined.

Lemma failed_save_throws_and_stops_witness :
  (let w := write_protected (stuck "abc-123") in
   result (saveApiResponse sample_client optimal_doc "response_2" w)
   = Thrown permission_denied
   /\ emitted (saveApiResponse sample_client optimal_doc "response_2" w)
      = [FsWrite (store_path sample_client Response "response_2")
           (JSON_stringify optimal_doc)])
  /\ (result (savePostData sample_client sample_request "post_2" full_disk)
      = Thrown disk_full
      /\ emitted (savePostData sample_client sample_request "post_2" full_disk)
         = [FsWrite (store_path sample_client Request "post_2")
              (JSON_stringify sample_request)]).
Proof.
  cbv zeta. split.
  - apply (@failed_save_throws_and_stops node_runtime sample_client Response "response_2"
             optimal_doc (saveApiResponse sample_client optimal_doc "response_2")
             (write_protected (stuck "abc-123")) permission_denied).
    + reflexivity.
    + reflexivity.
  - apply (@failed_save_throws_and_stops node_runtime sample_client Request "post_2"
             sample_request (savePostData sample_client sample_request "post_2")
             full_disk disk_full).
    + reflexivity.
    + reflexivity.
Defined.

Lemma load_of_existing_file_witness :
  result (store_load sample_client Request "post_2" (holding "{ broken"))
  = JSON_parse "{ broken".
Proof.
  apply (@load_of_existing_file node_runtime sample_client Request "post_2"
           (holding "{ broken") "{ broken").
  vm_compute. reflexivity.
Defined.

Lemma summary_fails_exactly_on_broken_messages_witness :
  result (printResultsSummary null_errors_response (stuck "abc-123"))
  = if broken_messages null_errors_response
    then Thrown (TypeError "Cannot convert undefined or null to object")
    else Returned tt.
Proof.
  apply (summary_fails_exactly_on_broken_messages
           [("run_uuid", JStr "abc-123");
            ("status", JStr "optimal");
            ("outputs", JObj [("Financial", JObj [("npv", JNum 50000)])]);
            ("messages", JObj [("info", JStr ""); ("errors", JNull);
                               ("warnings", JObj []); ("has_stacktrace", JBool false)])]
           (stuck "abc-123")).
  reflexivity.
Defined.

Lemma scenario_saves_request_and_result_witness :
  let o := runSingleScenario_try sample_client sample_request (scripted "abc-123" 2) in
  result o = Returned tt
  /\ posted (emitted o) = [(jobUrl sample_client, sample_request)]
  /\ written (emitted o)
     = [(store_path sample_client Request "post_2", JSON_stringify sample_request);
        (store_path sample_client Response "results_file", JSON_stringify optimal_doc);
        (store_path sample_client Response "response_2", JSON_stringify optimal_doc)].
Proof.
  cbv zeta.
  apply (@scenario_saves_request_and_result node_runtime sample_client sample_request
           sample_request optimal_doc (scripted "abc-123" 2)).
  - vm_compute. reflexivity.
  - reflexivity.
  - reflexivity.
  - reflexivity.
  - exists "abc-123", 2%nat. split; [reflexivity|]. split; [unfold maxAttempts; lia|].
    split; [intros i Hi; now apply scripted_running|]. split; reflexivity.
  - reflexivity.
  - reflexivity.
Defined.

Lemma scenario_loses_response_on_broken_messages_witness :
  let o := runSingleScenario_try sample_client sample_request
             (delivering "abc-123" 2 null_errors_response) in
  result o = Thrown (TypeError "Cannot convert undefined or null to object")
  /\ written (emitted o)
     = [(store_path sample_client Request "post_2", JSON_stringify sample_request);
        (store_path sample_client Response "results_file",
         JSON_stringify null_errors_response)].
Proof.
  cbv zeta.
  apply (@scenario_loses_response_on_broken_messages node_runtime sample_client
           sample_request sample_request null_errors_response
           (delivering "abc-123" 2 null_errors_response)).
  - vm_compute. reflexivity.
  - reflexivity.
  - reflexivity.
  - exists "abc-123", 2%nat. split; [reflexivity|]. split; [unfold maxAttempts; lia|].
    split; [intros i Hi; now apply delivering_running|]. split; reflexivity.
  - reflexivity.
  - reflexivity.
Defined.

Lemma scenario_stops_on_rejection_witness :
  let o := runSingleScenario_try sample_client sample_request rejecting in
  result o = Thrown bad_request
  /\ written (emitted o)
     = [(store_path sample_client Request "post_2", JSON_stringify sample_request)]
  /\ fetches (emitted o) = O
  /\ files (final o)
     = <[store_path sample_client Request "post_2" := JSON_stringify sample_request]>
         (files rejecting)
  /\ exists before args, emitted o = (before ++ [ConsoleError args])%list.
Proof.
  cbv zeta.
  apply (@scenario_stops_on_rejection node_runtime sample_client sample_request
           sample_request rejecting bad_request).
  - vm_compute. reflexivity.
  - reflexivity.
  - reflexivity.
Defined.

Lemma scenario_stops_when_request_is_not_saved_witness :
  let o := runSingleScenario_try sample_client sample_request full_disk in
  result o = Thrown disk_full
  /\ posted (emitted o) = []
  /\ fetches (emitted o) = O
  /\ written (emitted o)
     = [(store_path sample_client Request "post_2", JSON_stringify sample_request)]
  /\ printed (emitted o) = ["Created sample scenario input"]
  /\ forall q, q <> store_path sample_client Request "post_2" ->
       files (final o) !! q = files full_disk !! q.
Proof.
  cbv zeta.
  apply (@scenario_stops_when_request_is_not_saved node_runtime sample_client
           sample_request full_disk disk_full).
  reflexivity.
Defined.


(** ** Failing writes on concrete disks *)

(** On a disk that runs full once the output file has been opened, a
    run whose job is finished at the first fetch throws the error of the
    write, and the result of the earlier run that the file held is gone:
    the file is left empty. *)
Example full_disk_run_loses_earlier_result :
  let o := getApiResults sample_client sample_request None None full_disk in
  files full_disk !! "outputs/results_file.json" = Some "{ }"
  /\ result o = Thrown disk_full
  /\ written (emitted o) = [("outputs/results_file.json", JSON_stringify optimal_doc)]
  /\ files (final o) !! "outputs/results_file.json" = Some EmptyString.
Proof. vm_compute. repeat split. Qed.

(** On a disk where the first write succeeds and the second one fails,
    the first save of a name returns and the second save of the same name
    throws; the file keeps the first document. *)
Example second_save_fails_after_first :
  let save1 := savePostData sample_client sample_request "post_2" in
  let save2 := savePostData sample_client optimal_doc "post_2" in
  let w := failing_second_write (stuck "abc-123") in
  result (save1 w) = Returned tt
  /\ result (save2 (final (save1 w))) = Thrown permission_denied
  /\ files (final (save2 (final (save1 w)))) !! "inputs/post_2.json"
     = Some (JSON_stringify sample_request).
Proof. vm_compute. repeat split. Qed.
